(** * Solidarity-loan allocation engine ([optimizar_prestamos], model_opt.py)

    A shallow embedding of the scoring-and-allocation routine of the
    Streamlit simulator, and the properties its specification states.

    Modelling conventions.
    - float64 values are idealised as exact rationals ([Q]); the IEEE
      special values that the unguarded division can produce (inf, -inf,
      NaN) are kept, see [Float].
    - requested amounts and capital are integers ([Z]), as the generator
      and the budget slider produce them.
    - a [DataFrame] is the list of its rows, each with its index label.
    - the table handed to the engine is an object in a heap: the engine
      assigns columns to it in place.
    - [DataFrame.sort_values] is a library routine; the development is
      parametric in it and assumes only what pandas documents for the call
      made here (see [Section Claims]).  Where the order of equal keys
      matters, the routine the call runs by default, NumPy's quicksort,
      is modelled too (see [sort_values_quicksort]). *)

From Stdlib Require Import ZArith QArith Qround Lia Lqa.
From stdpp Require Import gmap strings list sorting.

Local Open Scope Z_scope.

(** ** Numbers *)

(** The values a float64 cell of the efficiency column can hold. *)
Inductive Float : Type :=
  | NaN
  | NInf
  | Fin (q : Q)
  | PInf.

(** [x / m] for a float [x] and an integer [m], as NumPy computes it:
    a zero divisor raises nothing, it yields a signed infinity, or NaN for
    0/0. *)
Definition truediv (x : Q) (m : Z) : Float :=
  if decide (m = 0) then
    match (x ?= 0)%Q with
    | Gt => PInf
    | Lt => NInf
    | Eq => NaN
    end
  else Fin (x / inject_Z m)%Q.

(** IEEE [a <= b]: false as soon as one side is NaN. *)
Definition fleb (a b : Float) : bool :=
  match a, b with
  | NaN, _ | _, NaN => false
  | NInf, _ => true
  | _, PInf => true
  | Fin x, Fin y => Qle_bool x y
  | _, _ => false
  end.

(** IEEE [a == b]. *)
Definition feqb (a b : Float) : bool := fleb a b && fleb b a.

Definition is_nan (a : Float) : bool :=
  match a with NaN => true | _ => false end.

(** [precedes a b]: a row with key [a] may stand before a row with key [b]
    in a table sorted with [ascending=False] and the default
    [na_position='last']. *)
Definition precedes (a b : Float) : bool := is_nan b || fleb b a.

(** ** Tables *)

Record Row : Type := mkRow {
  ID_Proyecto : Z;
  Nombre_Proyecto : string;
  Monto_Solicitado : Z;
  V_Viabilidad : Q;
  C_Cohesion_Grupo : Q;
  I_Impacto_Comunitario : Q;
  N_Nivel_Necesidad : Q;
  E_Compromiso : Q;
  (* the two derived columns; [None] when the table does not have them *)
  IPS : option Q;
  Eficiencia_Solidaria : option Float
}.

(** Index labels of a table. *)
Abbreviation label := Z (only parsing).

(** A table: its rows in order, each with its index label. *)
Abbreviation DataFrame := (list (Z * Row)) (only parsing).

Definition labels (df : DataFrame) : list label := fst <$> df.

(** The five weights read from the [pesos] dictionary. *)
Record WeightVector : Type := mkWeights {
  w_v : Q; w_c : Q; w_i : Q; w_n : Q; w_e : Q
}.

(** The right-hand side of the [df['IPS'] = ...] assignment, for one row. *)
Definition compute_IPS (w : WeightVector) (r : Row) : Q :=
  (w_v w * V_Viabilidad r +
   w_c w * C_Cohesion_Grupo r +
   w_i w * I_Impacto_Comunitario r +
   w_n w * N_Nivel_Necesidad r +
   w_e w * E_Compromiso r)%Q.

Definition set_IPS (r : Row) (v : Q) : Row :=
  mkRow (ID_Proyecto r) (Nombre_Proyecto r) (Monto_Solicitado r)
        (V_Viabilidad r) (C_Cohesion_Grupo r) (I_Impacto_Comunitario r)
        (N_Nivel_Necesidad r) (E_Compromiso r)
        (Some v) (Eficiencia_Solidaria r).

Definition set_Eficiencia (r : Row) (v : Float) : Row :=
  mkRow (ID_Proyecto r) (Nombre_Proyecto r) (Monto_Solicitado r)
        (V_Viabilidad r) (C_Cohesion_Grupo r) (I_Impacto_Comunitario r)
        (N_Nivel_Necesidad r) (E_Compromiso r)
        (IPS r) (Some v).

(** [df['IPS'] = pesos['w_v'] * df['V_Viabilidad'] + ...] *)
Definition assign_IPS (w : WeightVector) (df : DataFrame) : DataFrame :=
  (λ ir, (ir.1, set_IPS ir.2 (compute_IPS w ir.2))) <$> df.

(** The quotient [df['IPS'] / df['Monto_Solicitado']] for one row; a
    missing score is a missing value, that is NaN. *)
Definition row_eficiencia (r : Row) : Float :=
  match IPS r with
  | Some x => truediv x (Monto_Solicitado r)
  | None => NaN
  end.

(** [df['Eficiencia_Solidaria'] = df['IPS'] / df['Monto_Solicitado']] *)
Definition assign_Eficiencia (df : DataFrame) : DataFrame :=
  (λ ir, (ir.1, set_Eficiencia ir.2 (row_eficiencia ir.2))) <$> df.

(** The sort key of a row: its efficiency cell, NaN when it has none. *)
Definition eficiencia (ir : Z * Row) : Float :=
  default NaN (Eficiencia_Solidaria ir.2).

(** The order [sort_values(by='Eficiencia_Solidaria', ascending=False)]
    establishes between a row and a later one. *)
Definition desc (a b : Z * Row) : Prop := precedes (eficiencia a) (eficiencia b).

(** [df.loc[idx]] for a list of labels: for each label in turn, the rows of
    [df] that carry it. *)
Definition loc_rows (df : DataFrame) (idx : list label) : DataFrame :=
  i ← idx; filter (λ ir, ir.1 = i) df.

(** [df.drop(idx)]: the rows of [df] whose label is not listed, in the
    order of [df]. *)
Definition drop_rows (df : DataFrame) (idx : list label) : DataFrame :=
  filter (λ ir, ir.1 ∉ idx) df.

(** One iteration of the selection loop over [df_sorted.iterrows()]; the
    state is [(capital_restante, proyectos_aprobados_idx)]. *)
Definition paso (st : Z * list label) (ir : Z * Row) : Z * list label :=
  if decide (Monto_Solicitado ir.2 ≤ st.1)
  then (st.1 - Monto_Solicitado ir.2, st.2 ++ [ir.1])
  else st.

(** The whole loop, from [capital_restante = capital_disponible] and an
    empty list of approved labels. *)
Definition seleccionar (df_sorted : DataFrame) (capital_disponible : Z)
  : Z * list label :=
  foldl paso (capital_disponible, []) df_sorted.

(** ** Objects, exceptions and calls *)

Abbreviation ref := positive (only parsing).
Abbreviation heap := (gmap positive (list (Z * Row))) (only parsing).

(** [KeyError] is what a dictionary raises for a missing key.  A
    reference that names no object does not arise in Python; the model
    gives it an outcome of its own, [InvalidReference]. *)
Inductive exn : Type :=
  | KeyError (key : string)
  | InvalidReference (l : ref).

(** How a call ends: it returns a value or raises. *)
Inductive outcome (A : Type) : Type :=
  | Return (a : A)
  | Raise (e : exn).
Arguments Return {A} a.
Arguments Raise {A} e.

(** Computations over the heap that may raise. *)
Definition Py (A : Type) : Type := heap → outcome A * heap.

Definition py_ret {A} (a : A) : Py A := λ h, (Return a, h).

Definition py_bind {A B} (m : Py A) (k : A → Py B) : Py B :=
  λ h, match m h with
       | (Return a, h') => k a h'
       | (Raise e, h') => (Raise e, h')
       end.

Definition py_raise {A} (e : exn) : Py A := λ h, (Raise e, h).

Declare Scope py_scope.
Delimit Scope py_scope with py.
Notation "x ←ₚ m ; k" := (py_bind m (λ x, k))
  (at level 20, m at level 100, k at level 200, right associativity,
   format "x  ←ₚ  m ;  '/' k") : py_scope.
Notation "m ;;ₚ k" := (py_bind m (λ _, k))
  (at level 100, k at level 200, right associativity) : py_scope.

(** Reading and assigning the table an object reference stands for. *)
Definition load (l : ref) : Py DataFrame :=
  λ h, match h !! l with
       | Some df => (Return df, h)
       | None => (Raise (InvalidReference l), h)
       end.

Definition store (l : ref) (df : DataFrame) : Py unit :=
  λ h, (Return (), <[l := df]> h).

(** [df.copy()]: a new object with the same rows. *)
Definition copy (l : ref) : Py ref :=
  (df ←ₚ load l;
   λ h, let l' := fresh (dom h) in (Return l', <[l' := df]> h))%py.

(** [pesos[key]] on a Python dict. *)
Definition getitem (pesos : gmap string Q) (key : string) : Py Q :=
  match pesos !! key with
  | Some v => py_ret v
  | None => py_raise (KeyError key)
  end.

(** The five lookups of the score expression, in evaluation order.  The
    column reads that stand between them in the expression cannot fail
    on a table that has the columns of [Row]. *)
Definition leer_pesos (pesos : gmap string Q) : Py WeightVector :=
  (wv ←ₚ getitem pesos "w_v";
   wc ←ₚ getitem pesos "w_c";
   wi ←ₚ getitem pesos "w_i";
   wn ←ₚ getitem pesos "w_n";
   we ←ₚ getitem pesos "w_e";
   py_ret (mkWeights wv wc wi wn we))%py.

(** What a call returns:
    [(proyectos_aprobados, proyectos_rechazados, capital_restante)]. *)
Abbreviation Resultado := (list (Z * Row) * list (Z * Row) * Z)%type (only parsing).

Section Engine.

(** [df.sort_values(by='Eficiencia_Solidaria', ascending=False)], the
    library routine the engine calls. *)
Variable sort_values : DataFrame → DataFrame.

Definition optimizar_prestamos
    (df : ref) (capital_disponible : Z) (pesos : gmap string Q)
  : Py Resultado :=
  ((* 1. the IPS of every project *)
   w ←ₚ leer_pesos pesos;
   d ←ₚ load df;
   store df (assign_IPS w d);;ₚ
   (* 2. the efficiency, IPS per unit of money *)
   d ←ₚ load df;
   store df (assign_Eficiencia d);;ₚ
   (* 3. projects by decreasing efficiency *)
   d ←ₚ load df;
   let df_sorted := sort_values d in
   (* 4. greedy selection until the capital runs out *)
   let '(capital_restante, proyectos_aprobados_idx) :=
     seleccionar df_sorted capital_disponible in
   let proyectos_aprobados := loc_rows d proyectos_aprobados_idx in
   let proyectos_rechazados := drop_rows d proyectos_aprobados_idx in
   py_ret (proyectos_aprobados, proyectos_rechazados, capital_restante))%py.

End Engine.

(** [optimizar_prestamos(df_solicitudes.copy(), capital_total, pesos)]:
    the call the main script makes, on a copy of its table. *)
Definition llamada_principal (sort_values : DataFrame → DataFrame)
    (df_solicitudes : ref) (capital_total : Z) (pesos : gmap string Q)
  : Py Resultado :=
  (copia ←ₚ copy df_solicitudes;
   optimizar_prestamos sort_values copia capital_total pesos)%py.

(** ** The table after the two column assignments *)

Definition puntuar (w : WeightVector) (df : DataFrame) : DataFrame :=
  assign_Eficiencia (assign_IPS w df).

(** What the assignments do to one row. *)
Definition puntuar_fila (w : WeightVector) (r : Row) : Row :=
  let r1 := set_IPS r (compute_IPS w r) in
  set_Eficiencia r1 (row_eficiencia r1).

(** ** The single pass, as a relation

    This relation is written from step 4 of the specification, not from
    the code; [foldl_paso_walk] relates the loop of the code to it.

    [walk c s a w c']: starting with capital [c], walking the rows [s] in
    order approves the rows [a], waitlists the rows [w] and leaves [c'];
    a row is approved exactly when its amount is at most the capital that
    remains when it is reached, and its amount is then subtracted. *)
Inductive walk : Z → DataFrame → DataFrame → DataFrame → Z → Prop :=
  | walk_nil c :
      walk c [] [] [] c
  | walk_approve c ir s a w c' :
      Monto_Solicitado ir.2 ≤ c →
      walk (c - Monto_Solicitado ir.2) s a w c' →
      walk c (ir :: s) (ir :: a) w c'
  | walk_waitlist c ir s a w c' :
      c < Monto_Solicitado ir.2 →
      walk c s a w c' →
      walk c (ir :: s) a (ir :: w) c'.

(** The sum of the requested amounts of a table. *)
Definition suma_montos (df : DataFrame) : Z :=
  foldr (λ ir acc, Monto_Solicitado ir.2 + acc) 0 df.

(** ** Weights *)

(** The dictionary [pesos] holds the five weights [w]. *)
Definition tiene_pesos (pesos : gmap string Q) (w : WeightVector) : Prop :=
  pesos !! "w_v" = Some (w_v w) ∧
  pesos !! "w_c" = Some (w_c w) ∧
  pesos !! "w_i" = Some (w_i w) ∧
  pesos !! "w_n" = Some (w_n w) ∧
  pesos !! "w_e" = Some (w_e w).

(** ** A sorting routine that meets the contract

    Insertion sort, parametric in the test [antes x y] that lets the row
    being inserted stand before [y]. *)

Fixpoint insertar (antes : Z * Row → Z * Row → bool)
    (x : Z * Row) (l : DataFrame) : DataFrame :=
  match l with
  | [] => [x]
  | y :: l' => if antes x y then x :: l else y :: insertar antes x l'
  end.

Definition ordenar (antes : Z * Row → Z * Row → bool) (df : DataFrame)
  : DataFrame :=
  foldr (insertar antes) [] df.

(** Rows with equal keys keep the order of the table: what
    [kind='stable'] would give. *)
Definition sort_values_stable : DataFrame → DataFrame :=
  ordenar (λ x y, precedes (eficiencia x) (eficiencia y)).

(** Two rows tie when their efficiencies are equal floats. *)
Definition empata (k : Float) (ir : Z * Row) : Prop :=
  feqb (eficiencia ir) k.

#[global] Instance empata_dec k ir : Decision (empata k ir).
Proof. unfold empata. apply _. Defined.

(** A sort is stable when the rows of each key keep their order. *)
Definition stable (sort : DataFrame → DataFrame) : Prop :=
  ∀ df k, filter (empata k) (sort df) = filter (empata k) df.

(** ** The library sort on its scalar path

    [df.sort_values(by=..., ascending=False)] with the default [kind]:
    pandas sets the rows with a NaN key apart, reverses the others, sorts
    them in increasing order with NumPy's quicksort, reverses the
    outcome and puts the NaN rows last.  NumPy's quicksort is an
    introsort: a segment of more than 17 elements is partitioned around
    the median of its first, middle and last element, a smaller one is
    sorted by insertion, and a segment reached beyond the depth bound by
    heapsort.  The model sorts the rows themselves where the library
    sorts an array of positions and takes the rows afterwards; it covers
    the scalar routine, not the vectorised ones some builds dispatch
    to. *)

















(** ** Demonstration tables *)

(** The default weights of the control panel: 0.3, 0.2, 0.2, 0.2, 0.1. *)
Definition pesos_demo : gmap string Q :=
  {[ "w_v" := 3 # 10; "w_c" := 2 # 10; "w_i" := 2 # 10;
     "w_n" := 2 # 10; "w_e" := 1 # 10 ]}%Q.

Definition w_demo : WeightVector :=
  mkWeights (3 # 10) (2 # 10) (2 # 10) (2 # 10) (1 # 10).

(** A request as the generator makes it: no derived column yet. *)
Definition solicitud (id : Z) (nombre : string) (monto : Z)
    (v c i n e : Q) : Row :=
  mkRow id nombre monto v c i n e None None.

(** Four requests; the second and the fourth have the same efficiency
    under the default weights (5/500 and 10/1000). *)
Definition solicitudes_demo : DataFrame :=
  [ (0, solicitud 1 "Taller de Costura" 2000 8 6 7 5 9);
    (1, solicitud 2 "Servicio de Reparaciones" 500 5 5 5 5 5);
    (2, solicitud 3 "Clases de Refuerzo" 2500 9 9 9 9 9);
    (3, solicitud 4 "Venta de Comida" 1000 10 10 10 10 10) ].

Definition heap_demo : heap := {[ 1%positive := solicitudes_demo ]}.

(** A table with one request that asks for nothing. *)
Definition solicitudes_cero : DataFrame :=
  [ (0, solicitud 1 "Reciclaje Creativo" 0 5 5 5 5 5) ].

Definition heap_cero : heap := {[ 1%positive := solicitudes_cero ]}.

(** A second heap, with the demonstration table under another reference. *)
Definition heap_demo2 : heap :=
  {[ 1%positive := solicitudes_cero; 2%positive := solicitudes_demo ]}.



(** ** The request generator *)

(** The names [generar_datos_ficticios] chooses from. *)
Definition proyectos : list string :=
  [ "Taller de Costura"; "Panadería Comunitaria"; "Servicio de Reparaciones";
    "Huerto Urbano Orgánico"; "Cuidado de Niños"; "Clases de Refuerzo";
    "Tienda de Abarrotes"; "Carpintería"; "Venta de Comida";
    "Reciclaje Creativo" ].

(** The random draws of one call, by position in the arrays drawn:
    the index [np.random.choice] picks in [proyectos], the integer of
    [np.random.randint(500, 5001, n)] and the five reals of
    [np.random.uniform(1, 10, n)]. *)
Record Sorteo : Type := mkSorteo {
  sorteo_proyecto : nat → nat;
  sorteo_monto : nat → Z;
  sorteo_V : nat → Q;
  sorteo_C : nat → Q;
  sorteo_I : nat → Q;
  sorteo_N : nat → Q;
  sorteo_E : nat → Q
}.

(** A real drawn by [uniform(1, 10)] lies in the half-open interval. *)
Definition uniforme_1_10 (u : Q) : Prop := (1 <= u)%Q ∧ (u < 10)%Q.

(** The draws NumPy can make for [n] requests. *)
Definition sorteo_valido (n : nat) (s : Sorteo) : Prop :=
  ∀ k, (k < n)%nat →
    (sorteo_proyecto s k < length proyectos)%nat ∧
    500 ≤ sorteo_monto s k ≤ 5000 ∧
    uniforme_1_10 (sorteo_V s k) ∧
    uniforme_1_10 (sorteo_C s k) ∧
    uniforme_1_10 (sorteo_I s k) ∧
    uniforme_1_10 (sorteo_N s k) ∧
    uniforme_1_10 (sorteo_E s k).

(** [x.round(1)]: the nearest multiple of one tenth, a tie going to the
    even one. *)
Definition round1 (u : Q) : Q :=
  let t := (u * 10)%Q in
  let n := Qfloor t in
  let k := match (t - inject_Z n ?= 1 # 2)%Q with
           | Lt => n
           | Gt => n + 1
           | Eq => if Z.even n then n else n + 1
           end in
  (k # 10)%Q.

Definition set_Monto (r : Row) (m : Z) : Row :=
  mkRow (ID_Proyecto r) (Nombre_Proyecto r) m
        (V_Viabilidad r) (C_Cohesion_Grupo r) (I_Impacto_Comunitario r)
        (N_Nivel_Necesidad r) (E_Compromiso r)
        (IPS r) (Eficiencia_Solidaria r).

(** [pd.DataFrame(data)]: row [k] of the table, under the label [k] of the
    default index. *)
Definition fila_generada (s : Sorteo) (k : nat) : Z * Row :=
  (Z.of_nat k,
   mkRow (Z.of_nat k + 1)
         (default "" (proyectos !! sorteo_proyecto s k))
         (sorteo_monto s k)
         (round1 (sorteo_V s k)) (round1 (sorteo_C s k))
         (round1 (sorteo_I s k)) (round1 (sorteo_N s k))
         (round1 (sorteo_E s k))
         None None).

(** [generar_datos_ficticios(num_solicitudes)], the draws made explicit. *)
Definition generar_datos_ficticios (num_solicitudes : nat) (s : Sorteo)
  : DataFrame :=
  let df := fila_generada s <$> seq 0 num_solicitudes in
  (* amounts become multiples of 50 *)
  (λ ir, (ir.1, set_Monto ir.2 (Monto_Solicitado ir.2 `div` 50 * 50))) <$> df.

(** ** The main script *)

(** A new table object. *)
Definition alloc (df : DataFrame) : Py ref :=
  λ h, let l := fresh (dom h) in (Return l, <[l := df]> h).

(** [pesos = {'w_v': w_v, 'w_c': w_c, 'w_i': w_i, 'w_n': w_n, 'w_e': w_e}] *)
Definition dict_pesos (wv wc wi wn we : Q) : gmap string Q :=
  {[ "w_v" := wv; "w_c" := wc; "w_i" := wi; "w_n" := wn; "w_e" := we ]}.

(** The four figures shown above the tabs. *)
Record Metricas : Type := mkMetricas {
  capital_asignado : Z;
  proyectos_aprobados_n : nat;
  impacto_social_total : Q;
  capital_sobrante : Z
}.

(** [aprobados_df['IPS'].sum()]; a cell without value counts for nothing. *)
Definition suma_IPS (df : DataFrame) : Q :=
  foldl (λ acc ir, (acc + default 0 (IPS ir.2))%Q) 0%Q df.

(** The script from the controls to the metrics: the values of the
    sliders are its inputs, with the draws of the generator. *)
Definition principal (sort_values : DataFrame → DataFrame)
    (capital_total : Z) (num_solicitudes : nat) (wv wc wi wn we : Q)
    (s : Sorteo)
  : Py (ref * (list (Z * Row) * list (Z * Row) * Z) * Metricas) :=
  (let pesos := dict_pesos wv wc wi wn we in
   df_solicitudes ←ₚ alloc (generar_datos_ficticios num_solicitudes s);
   res ←ₚ llamada_principal sort_values df_solicitudes capital_total pesos;
   py_ret (df_solicitudes, res,
           mkMetricas (capital_total - res.2)
                      (length res.1.1)
                      (suma_IPS res.1.1)
                      res.2))%py.

(** What the sliders of the sidebar allow. *)
Definition controles_validos (capital_total : Z) (num_solicitudes : nat)
    (wv wc wi wn we : Q) : Prop :=
  5000 ≤ capital_total ≤ 100000 ∧
  (10 ≤ num_solicitudes ≤ 100)%nat ∧
  Forall (λ x, (0 <= x)%Q ∧ (x <= 1)%Q) [wv; wc; wi; wn; we].

(** The weights [w], each multiplied by [k]. *)
Definition escalar (k : Q) (w : WeightVector) : WeightVector :=
  mkWeights (k * w_v w) (k * w_c w) (k * w_i w) (k * w_n w) (k * w_e w).

(** A row without its derived cells. *)
Definition sin_derivadas (r : Row) : Row :=
  mkRow (ID_Proyecto r) (Nombre_Proyecto r) (Monto_Solicitado r)
        (V_Viabilidad r) (C_Cohesion_Grupo r) (I_Impacto_Comunitario r)
        (N_Nivel_Necesidad r) (E_Compromiso r)
        None None.

(** The keys of [pesos] the engine reads, in the order it reads them. *)
Definition claves : list string := ["w_v"; "w_c"; "w_i"; "w_n"; "w_e"].

(** Draws for the demonstrations: request [k] asks for [1234 + 100 k] and
    scores between 3.14 and 9.14. *)
Definition sorteo_demo : Sorteo :=
  mkSorteo (λ k, k `mod` 10)%nat
           (λ k, 1234 + 100 * Z.of_nat (k `mod` 30))
           (λ k, (314 + 25 * Z.of_nat (k `mod` 20)) # 100)%Q
           (λ _, 5 # 1)%Q (λ _, 725 # 100)%Q (λ _, 1 # 1)%Q
           (λ _, 9999 # 1000)%Q.

(** A dictionary that lacks the last three weights. *)
Definition pesos_incompletos : gmap string Q :=
  {[ "w_v" := 3 # 10; "w_c" := 2 # 10 ]}%Q.

(** A heap whose table has no rows. *)
Definition heap_vacio : heap := {[ 1%positive := [] ]}.

(** A heap whose table already holds the derived columns. *)
Definition heap_puntuado : heap :=
  {[ 1%positive := puntuar w_demo solicitudes_demo ]}.

(** The first row [sorteo_demo] generates. *)
Definition fila_demo : Row :=
  mkRow 1 "Taller de Costura" 1200
        (31 # 10) (50 # 10) (72 # 10) (10 # 10) (100 # 10) None None.

(** * Lemmas *)

(** ** The column assignments *)

Lemma puntuar_fmap w df :
  puntuar w df = (λ ir, (ir.1, puntuar_fila w ir.2)) <$> df.
Proof.
  unfold puntuar, assign_Eficiencia, assign_IPS.
  rewrite <- list_fmap_compose. apply list_fmap_ext. by intros _ [i r] _.
Qed.

Lemma labels_puntuar w df : labels (puntuar w df) = labels df.
Proof.
  rewrite puntuar_fmap. unfold labels. rewrite <- list_fmap_compose.
  apply list_fmap_ext. by intros _ [i r] _.
Qed.

Lemma length_puntuar w df : length (puntuar w df) = length df.
Proof. rewrite puntuar_fmap. apply length_fmap. Qed.

Lemma puntuar_fila_idemp w r :
  puntuar_fila w (puntuar_fila w r) = puntuar_fila w r.
Proof. by destruct r. Qed.

Lemma puntuar_idemp w df : puntuar w (puntuar w df) = puntuar w df.
Proof.
  rewrite !puntuar_fmap, <- list_fmap_compose. apply list_fmap_ext.
  intros _ [i r] _. simpl. by rewrite puntuar_fila_idemp.
Qed.

Lemma elem_of_puntuar w df i r' :
  (i, r') ∈ puntuar w df ↔ ∃ r, (i, r) ∈ df ∧ r' = puntuar_fila w r.
Proof.
  rewrite puntuar_fmap, list_elem_of_fmap. split.
  - intros [[j r] [Heq Hin]]. simpl in Heq. inversion Heq; subst. eauto.
  - intros (r & Hin & ->). by exists (i, r).
Qed.

Lemma ids_puntuar w df :
  (λ ir, ID_Proyecto ir.2) <$> puntuar w df = (λ ir, ID_Proyecto ir.2) <$> df.
Proof.
  rewrite puntuar_fmap, <- list_fmap_compose. apply list_fmap_ext.
  by intros _ [i r] _.
Qed.

(** ** The walk *)

Lemma foldl_paso_walk s : ∀ c acc,
  ∃ a w c', walk c s a w c' ∧ foldl paso (c, acc) s = (c', acc ++ labels a).
Proof.
  induction s as [|ir s IH]; intros c acc.
  - exists [], [], c. split; [constructor|]. simpl. by rewrite app_nil_r.
  - simpl. unfold paso at 2. simpl. case_decide as Hle.
    + destruct (IH (c - Monto_Solicitado ir.2) (acc ++ [ir.1]))
        as (a & w & c' & Hw & Hf).
      exists (ir :: a), w, c'. split; [by constructor|].
      rewrite Hf. simpl. by rewrite <- app_assoc.
    + destruct (IH c acc) as (a & w & c' & Hw & Hf).
      exists a, (ir :: w), c'. split; [constructor; [lia|done]|done].
Qed.

Lemma walk_sublist_approved c s a w c' : walk c s a w c' → sublist a s.
Proof. induction 1; by constructor. Qed.

Lemma walk_sublist_waitlisted c s a w c' : walk c s a w c' → sublist w s.
Proof. induction 1; by constructor. Qed.

Lemma walk_perm c s a w c' : walk c s a w c' → a ++ w ≡ₚ s.
Proof.
  induction 1 as [|c ir s a w c' _ _ IH|c ir s a w c' _ _ IH]; simpl.
  - done.
  - by rewrite IH.
  - by rewrite <- Permutation_middle, IH.
Qed.

Lemma walk_conservation c s a w c' :
  walk c s a w c' → c' = c - suma_montos a.
Proof. induction 1; simpl in *; lia. Qed.

Lemma walk_nonneg c s a w c' : walk c s a w c' → 0 ≤ c → 0 ≤ c'.
Proof. induction 1; intros; [done| |]; apply IHwalk; lia. Qed.

Lemma walk_deterministic c s a1 w1 c1 a2 w2 c2 :
  walk c s a1 w1 c1 → walk c s a2 w2 c2 → a1 = a2 ∧ w1 = w2 ∧ c1 = c2.
Proof.
  intros H1. revert a2 w2 c2.
  induction H1 as [|c ir s a w c' Hle _ IH|c ir s a w c' Hlt _ IH];
    intros a2 w2 c2 H2; inversion H2; subst; try lia.
  - done.
  - destruct (IH _ _ _ ltac:(eassumption)) as (-> & -> & ->). done.
  - destruct (IH _ _ _ ltac:(eassumption)) as (-> & -> & ->). done.
Qed.

Lemma walk_zero_approved c s a w c' :
  walk c s a w c' → 0 ≤ c →
  ∀ ir, ir ∈ s → Monto_Solicitado ir.2 = 0 → ir ∈ a.
Proof.
  induction 1 as [|c ir s a w c' Hle _ IH|c ir s a w c' Hlt _ IH];
    intros Hc x Hx Hx0.
  - by apply elem_of_nil in Hx.
  - apply elem_of_cons in Hx as [->|Hx]; [by left|].
    right. apply IH; [lia|done..].
  - apply elem_of_cons in Hx as [->|Hx]; [lia|]. by apply IH.
Qed.

Lemma foldl_paso_none s : ∀ c acc,
  Forall (λ ir, c < Monto_Solicitado ir.2) s →
  foldl paso (c, acc) s = (c, acc).
Proof.
  induction s as [|ir s IH]; intros c acc Hall; [done|].
  apply Forall_cons in Hall as [Hir Hall]. simpl.
  unfold paso at 2. simpl. rewrite decide_False by lia. by apply IH.
Qed.

(** ** Selection by label, on a table whose labels are unique *)

Lemma filter_label_absent (df : DataFrame) i :
  i ∉ labels df → filter (λ ir, ir.1 = i) df = [].
Proof.
  induction df as [|[j r] df IH]; [done|]. simpl.
  rewrite not_elem_of_cons. intros [Hne Hni].
  rewrite filter_cons_False by (simpl; congruence). auto.
Qed.

Lemma filter_label_unique (df : DataFrame) i r :
  NoDup (labels df) → (i, r) ∈ df → filter (λ ir, ir.1 = i) df = [(i, r)].
Proof.
  induction df as [|[j r'] df IH]; simpl.
  - intros _ Hin. by apply elem_of_nil in Hin.
  - rewrite NoDup_cons, elem_of_cons. intros [Hni Hnd] [Heq|Hin].
    + inversion Heq; subst. rewrite filter_cons_True by done.
      by rewrite filter_label_absent.
    + assert (j ≠ i) as Hne.
      { intros ->. apply Hni. unfold labels.
        apply list_elem_of_fmap. by exists (i, r). }
      rewrite filter_cons_False by (simpl; congruence). auto.
Qed.

Lemma loc_rows_labels (df a : DataFrame) :
  NoDup (labels df) → a ⊆ df → loc_rows df (labels a) = a.
Proof.
  intros Hnd. unfold loc_rows, labels.
  induction a as [|[i r] a IH]; intros Hsub; [done|].
  rewrite fmap_cons, bind_cons. simpl fst.
  rewrite (filter_label_unique df i r) by (done || (apply Hsub; left)).
  simpl. f_equal. apply IH. intros x Hx. apply Hsub. by right.
Qed.

Lemma elem_of_labels (df : DataFrame) ir : ir ∈ df → ir.1 ∈ labels df.
Proof. intros. unfold labels. apply list_elem_of_fmap. eauto. Qed.

Lemma filter_ext_elem_of {A} (P1 P2 : A → Prop)
    `{!∀ x, Decision (P1 x), !∀ x, Decision (P2 x)} (l : list A) :
  (∀ x, x ∈ l → P1 x ↔ P2 x) → filter P1 l = filter P2 l.
Proof.
  induction l as [|x l IH]; intros Hext; [done|].
  rewrite !filter_cons.
  rewrite IH by (intros y Hy; apply Hext; by right).
  apply decide_ext, Hext. by left.
Qed.

(** The rows the walk waitlists are those whose label it did not approve. *)
Lemma walk_drop c s a w c' :
  NoDup (labels s) → walk c s a w c' →
  filter (λ ir, ir.1 ∉ labels a) s = w.
Proof.
  intros Hnd Hw.
  induction Hw as [|c ir s a w c' _ Hw IH|c ir s a w c' _ Hw IH].
  - done.
  - simpl in Hnd. apply NoDup_cons in Hnd as [Hni Hnd].
    rewrite filter_cons_False by (simpl; intros Hn; apply Hn; left).
    rewrite <- (IH Hnd). apply filter_ext_elem_of.
    intros x Hx. simpl. rewrite not_elem_of_cons.
    apply elem_of_labels in Hx. split; [tauto|]. intros ?; split; [|done].
    intros Heq. by rewrite Heq in Hx.
  - simpl in Hnd. apply NoDup_cons in Hnd as [Hni Hnd].
    rewrite filter_cons_True.
    + by rewrite (IH Hnd).
    + simpl. intros Hin. apply Hni.
      apply list_elem_of_fmap in Hin as [x [-> Hx]].
      apply elem_of_labels.
      eapply elem_of_sublist; [done|]. by eapply walk_sublist_approved.
Qed.


Lemma drop_rows_nil (df : DataFrame) : drop_rows df [] = df.
Proof.
  unfold drop_rows. induction df as [|x df IH]; [done|].
  rewrite filter_cons_True by apply not_elem_of_nil. by rewrite IH.
Qed.

Lemma elem_of_loc_rows (df : DataFrame) idx x :
  x ∈ loc_rows df idx → x ∈ df.
Proof.
  unfold loc_rows. rewrite list_elem_of_bind.
  intros (i & Hx & _). by apply list_elem_of_filter in Hx as [_ ?].
Qed.

Lemma elem_of_drop_rows (df : DataFrame) idx x :
  x ∈ drop_rows df idx → x ∈ df.
Proof. unfold drop_rows. rewrite list_elem_of_filter. tauto. Qed.

(** ** The order of the ranking *)

Lemma fleb_not_nan_r a b : fleb a b → is_nan b = false.
Proof. by destruct a, b. Qed.

Lemma fleb_trans a b c : fleb a b → fleb b c → fleb a c.
Proof.
  destruct a, b, c; simpl; try done.
  rewrite !Is_true_true, !Qle_bool_iff. apply Qle_trans.
Qed.

Lemma fleb_total a b :
  is_nan a = false → is_nan b = false → fleb a b ∨ fleb b a.
Proof.
  destruct a as [| |x|], b as [| |y|]; simpl; try done; auto.
  intros _ _. rewrite !Is_true_true, !Qle_bool_iff.
  destruct (Qlt_le_dec x y) as [Hlt|Hle]; [left; by apply Qlt_le_weak|by right].
Qed.

Lemma precedes_trans a b c : precedes a b → precedes b c → precedes a c.
Proof.
  unfold precedes. rewrite !orb_True. intros Hab [Hc|Hcb]; [by left|].
  right. destruct Hab as [Hb|Hba].
  - apply fleb_not_nan_r in Hcb. by rewrite Hcb in Hb.
  - by eapply fleb_trans.
Qed.

Lemma precedes_total a b : precedes a b ∨ precedes b a.
Proof.
  unfold precedes. rewrite !orb_True.
  destruct (is_nan a) eqn:Ha; [right; by left|].
  destruct (is_nan b) eqn:Hb; [left; by left|].
  destruct (fleb_total a b Ha Hb); auto.
Qed.

#[global] Instance desc_trans : Transitive desc.
Proof. intros x y z. apply precedes_trans. Qed.

Lemma StronglySorted_sublist {A} (R : relation A) (l k : list A) :
  sublist l k → StronglySorted R k → StronglySorted R l.
Proof.
  induction 1 as [|x l k Hs IH|x l k Hs IH]; intros Hk.
  - done.
  - apply StronglySorted_inv in Hk as [Hk Hx]. constructor; [auto|].
    eapply Forall_forall. intros y Hy.
    eapply Forall_forall in Hx; [done|]. by eapply elem_of_sublist.
  - apply StronglySorted_inv in Hk as [Hk _]. auto.
Qed.

(** ** Calls *)

Lemma leer_pesos_ok pesos w h :
  tiene_pesos pesos w → leer_pesos pesos h = (Return w, h).
Proof.
  intros (Hv & Hc & Hi & Hn & He).
  unfold leer_pesos, py_bind, getitem.
  rewrite Hv, Hc, Hi, Hn, He. simpl. by destruct w.
Qed.

(** The lookups of the weights do not depend on the heap, nor change it. *)
Lemma leer_pesos_pure pesos :
  ∃ o, ∀ h, leer_pesos pesos h = (o, h).
Proof.
  unfold leer_pesos, py_bind, getitem.
  destruct (pesos !! "w_v"); [|by eexists].
  destruct (pesos !! "w_c"); [|by eexists].
  destruct (pesos !! "w_i"); [|by eexists].
  destruct (pesos !! "w_n"); [|by eexists].
  destruct (pesos !! "w_e"); by eexists.
Qed.

Lemma leer_pesos_Return pesos w h h' :
  leer_pesos pesos h = (Return w, h') → tiene_pesos pesos w.
Proof.
  unfold leer_pesos, py_bind, getitem, tiene_pesos.
  destruct (pesos !! "w_v"); [|done].
  destruct (pesos !! "w_c"); [|done].
  destruct (pesos !! "w_i"); [|done].
  destruct (pesos !! "w_n"); [|done].
  destruct (pesos !! "w_e"); [|done].
  simpl. intros [= <- _]. done.
Qed.

Section Run.

Variable sort_values : DataFrame → DataFrame.
Hypothesis sort_values_perm : ∀ df, sort_values df ≡ₚ df.

Lemma optimizar_prestamos_run df capital pesos h d w :
  h !! df = Some d → tiene_pesos pesos w →
  optimizar_prestamos sort_values df capital pesos h =
    (Return (loc_rows (puntuar w d)
               (seleccionar (sort_values (puntuar w d)) capital).2,
             drop_rows (puntuar w d)
               (seleccionar (sort_values (puntuar w d)) capital).2,
             (seleccionar (sort_values (puntuar w d)) capital).1),
     <[df := puntuar w d]> h).
Proof.
  intros Hd Hw. unfold optimizar_prestamos, py_bind.
  rewrite (leer_pesos_ok _ _ _ Hw). unfold load, store. rewrite Hd.
  rewrite !lookup_insert_eq, insert_insert_eq.
  fold (puntuar w d).
  by destruct (seleccionar (sort_values (puntuar w d)) capital).
Qed.

(** A call on a table with unique labels returns the outcome of the walk
    over the sorted table. *)
Lemma optimizar_prestamos_walk df capital pesos h d w :
  h !! df = Some d → tiene_pesos pesos w → NoDup (labels d) →
  ∃ aprobados espera restante,
    optimizar_prestamos sort_values df capital pesos h =
      (Return (aprobados,
               drop_rows (puntuar w d) (labels aprobados),
               restante),
       <[df := puntuar w d]> h) ∧
    walk capital (sort_values (puntuar w d)) aprobados espera restante ∧
    drop_rows (puntuar w d) (labels aprobados) ≡ₚ espera.
Proof.
  intros Hd Hw Hnd.
  rewrite (optimizar_prestamos_run _ _ _ _ _ _ Hd Hw).
  set (d' := puntuar w d). set (s := sort_values d').
  assert (NoDup (labels d')) as Hnd' by (unfold d'; by rewrite labels_puntuar).
  assert (s ≡ₚ d') as Hp by apply sort_values_perm.
  assert (NoDup (labels s)) as Hnds.
  { unfold labels. by rewrite Hp. }
  destruct (foldl_paso_walk s capital []) as (a & e & c' & Hwalk & Hfold).
  unfold seleccionar. rewrite Hfold. simpl.
  exists a, e, c'. split_and!.
  - rewrite (loc_rows_labels d' a); [done..|].
    intros x Hx. rewrite <- Hp. eapply elem_of_sublist; [done|].
    by eapply walk_sublist_approved.
  - done.
  - unfold drop_rows. rewrite <- Hp. by erewrite walk_drop.
Qed.

End Run.

Lemma optimizar_prestamos_raise sort_values df capital pesos h e :
  leer_pesos pesos h = (Raise e, h) →
  optimizar_prestamos sort_values df capital pesos h = (Raise e, h).
Proof. intros H. unfold optimizar_prestamos, py_bind. by rewrite H. Qed.

(** ** The sorting routines *)

Lemma insertar_perm antes x l : insertar antes x l ≡ₚ x :: l.
Proof.
  induction l as [|y l IH]; simpl; [done|].
  destruct (antes x y); [done|]. by rewrite IH, Permutation_swap.
Qed.

Lemma ordenar_perm antes df : ordenar antes df ≡ₚ df.
Proof.
  induction df as [|x df IH]; simpl; [done|].
  by rewrite insertar_perm, IH.
Qed.

Section InsertionSort.

Variable antes : Z * Row → Z * Row → bool.
Hypothesis antes_true : ∀ x y, antes x y = true → desc x y.
Hypothesis antes_false : ∀ x y, antes x y = false → desc y x.

Lemma insertar_HdRel z x l :
  desc z x → HdRel desc z l → HdRel desc z (insertar antes x l).
Proof.
  intros Hzx Hl. destruct l as [|y l]; simpl; [by constructor|].
  destruct (antes x y); constructor; [done|]. by inversion Hl.
Qed.

Lemma insertar_sorted x l :
  Sorted desc l → Sorted desc (insertar antes x l).
Proof.
  induction 1 as [|y l Hs IH Hhd]; simpl.
  - repeat constructor.
  - destruct (antes x y) eqn:Hxy.
    + constructor; [by constructor|]. constructor. by apply antes_true.
    + constructor; [done|]. apply insertar_HdRel; [|done].
      by apply antes_false.
Qed.

Lemma ordenar_sorted df : Sorted desc (ordenar antes df).
Proof.
  induction df as [|x df IH]; simpl; [constructor|].
  by apply insertar_sorted.
Qed.

End InsertionSort.

Lemma sort_values_stable_perm df : sort_values_stable df ≡ₚ df.
Proof. apply ordenar_perm. Qed.

Lemma sort_values_stable_sorted df : Sorted desc (sort_values_stable df).
Proof.
  apply ordenar_sorted.
  - intros x y Hxy. unfold desc. by rewrite Hxy.
  - intros x y Hxy. unfold desc.
    destruct (precedes_total (eficiencia x) (eficiencia y)) as [H|H]; [|done].
    by rewrite Hxy in H.
Qed.

Lemma empata_precedes k x y : empata k x → empata k y → desc x y.
Proof.
  unfold empata, feqb, desc, precedes. rewrite !andb_True, orb_True.
  intros [Hxk Hkx] [Hyk Hky]. right. by eapply fleb_trans.
Qed.

Lemma sort_values_stable_is_stable : stable sort_values_stable.
Proof.
  intros df k. unfold sort_values_stable.
  induction df as [|x df IH]; [done|]. simpl.
  rewrite filter_cons, <- IH. clear IH.
  generalize (ordenar (λ x y, precedes (eficiencia x) (eficiencia y)) df).
  intros l. induction l as [|y l IH]; simpl; [done|].
  destruct (precedes (eficiencia x) (eficiencia y)) eqn:Hxy; [done|].
  rewrite !filter_cons, IH.
  destruct (decide (empata k x)) as [Hx|Hx],
           (decide (empata k y)) as [Hy|Hy]; try done.
  pose proof (empata_precedes k x y Hx Hy) as H. unfold desc in H.
  by rewrite Hxy in H.
Qed.

(** ** The library sort on tables of at most 17 rows *)














(** * The claims *)

Section Claims.

(** [df.sort_values(by='Eficiencia_Solidaria', ascending=False)].  The
    call leaves [kind] at its default, quicksort, which pandas documents
    as not stable: the order of rows with equal keys is not specified.
    What is assumed of the routine is that its result holds the rows of
    the table, ordered by decreasing key with the NaN keys last. *)
Variable sort_values : DataFrame → DataFrame.
Hypothesis sort_values_perm : ∀ df, sort_values df ≡ₚ df.
Hypothesis sort_values_sorted : ∀ df, Sorted desc (sort_values df).

(** C1. On a table with unique labels the call returns, and its result is
    that of one walk over the table sorted by decreasing efficiency,
    started with the whole budget: a request is approved exactly when its
    amount is at most the capital that remains when it is reached (and the
    amount is then subtracted), otherwise it is waitlisted.  The approved
    table lists its rows in the order of the sort, hence by decreasing
    efficiency. *)
Theorem optimizar_prestamos_greedy_walk df capital pesos h d w :
  h !! df = Some d → tiene_pesos pesos w → NoDup (labels d) →
  ∃ aprobados rechazados restante espera,
    (optimizar_prestamos sort_values df capital pesos h).1
      = Return (aprobados, rechazados, restante) ∧
    walk capital (sort_values (puntuar w d)) aprobados espera restante ∧
    rechazados ≡ₚ espera ∧
    sublist aprobados (sort_values (puntuar w d)) ∧
    StronglySorted desc aprobados.
Proof.
  intros Hd Hw Hnd.
  destruct (optimizar_prestamos_walk sort_values sort_values_perm
              df capital pesos h d w Hd Hw Hnd)
    as (a & e & c & Hrun & Hwalk & Hdrop).
  exists a, (drop_rows (puntuar w d) (labels a)), c, e.
  rewrite Hrun. split_and!; try done.
  - by eapply walk_sublist_approved.
  - eapply StronglySorted_sublist; [by eapply walk_sublist_approved|].
    apply Sorted_StronglySorted; [apply _|]. apply sort_values_sorted.
Qed.

(** C2. The remaining capital returned is the budget minus the sum of the
    requested amounts of the approved table; for a budget that is not
    negative it is not negative, that is the approved amounts add up to at
    most the budget. *)
Theorem optimizar_prestamos_conservation df capital pesos h d w :
  h !! df = Some d → tiene_pesos pesos w → NoDup (labels d) →
  ∃ aprobados rechazados restante,
    (optimizar_prestamos sort_values df capital pesos h).1
      = Return (aprobados, rechazados, restante) ∧
    restante = capital - suma_montos aprobados ∧
    (0 ≤ capital → 0 ≤ restante ∧ suma_montos aprobados ≤ capital).
Proof.
  intros Hd Hw Hnd.
  destruct (optimizar_prestamos_walk sort_values sort_values_perm
              df capital pesos h d w Hd Hw Hnd)
    as (a & e & c & Hrun & Hwalk & Hdrop).
  exists a, (drop_rows (puntuar w d) (labels a)), c.
  rewrite Hrun. split; [done|].
  pose proof (walk_conservation _ _ _ _ _ Hwalk) as Hc.
  split; [done|]. intros Hcap.
  pose proof (walk_nonneg _ _ _ _ _ Hwalk Hcap). lia.
Qed.

(** C3. The two tables returned split the input: together they hold the
    rows of the table exactly once each, so the counts add up to the
    count of requests, and every label (and every project identifier) of
    the input is in exactly one of them. *)
Theorem optimizar_prestamos_partition df capital pesos h d w :
  h !! df = Some d → tiene_pesos pesos w → NoDup (labels d) →
  ∃ aprobados rechazados restante,
    (optimizar_prestamos sort_values df capital pesos h).1
      = Return (aprobados, rechazados, restante) ∧
    (length aprobados + length rechazados = length d)%nat ∧
    aprobados ++ rechazados ≡ₚ puntuar w d ∧
    (λ ir, ID_Proyecto ir.2) <$> (aprobados ++ rechazados)
      ≡ₚ (λ ir, ID_Proyecto ir.2) <$> d ∧
    labels aprobados ++ labels rechazados ≡ₚ labels d ∧
    (∀ i, i ∈ labels d →
       (i ∈ labels aprobados ∧ i ∉ labels rechazados) ∨
       ((i ∉ labels aprobados) ∧ i ∈ labels rechazados)).
Proof.
  intros Hd Hw Hnd.
  destruct (optimizar_prestamos_walk sort_values sort_values_perm
              df capital pesos h d w Hd Hw Hnd)
    as (a & e & c & Hrun & Hwalk & Hdrop).
  set (r := drop_rows (puntuar w d) (labels a)) in *.
  exists a, r, c. rewrite Hrun.
  assert (a ++ r ≡ₚ puntuar w d) as Hperm.
  { rewrite Hdrop, (walk_perm _ _ _ _ _ Hwalk). apply sort_values_perm. }
  assert (labels a ++ labels r ≡ₚ labels d) as Hlab.
  { pose proof (labels_puntuar w d) as E. unfold labels in *.
    by rewrite <- fmap_app, Hperm, E. }
  split_and!; try done.
  - by rewrite <- length_app, Hperm, length_puntuar.
  - by rewrite Hperm, ids_puntuar.
  - intros i Hi.
    assert (NoDup (labels a ++ labels r)) as Hnd'.
    { by rewrite Hlab. }
    apply NoDup_app in Hnd' as (_ & Hdisj & _).
    rewrite <- Hlab in Hi. apply elem_of_app in Hi as [Hi|Hi].
    + left. split; [done|]. by apply Hdisj.
    + right. split; [|done]. intros Hia. by apply (Hdisj i).
Qed.

(** C4. Every row of the two tables returned carries as its IPS the sum
    of the five criterion scores of the request, each multiplied by the
    weight stored in [pesos] under its key, the weights taken as they
    are; the criterion scores themselves are those of the input row. *)
Theorem optimizar_prestamos_IPS_dot_product df capital pesos h d w :
  h !! df = Some d → tiene_pesos pesos w →
  ∃ aprobados rechazados restante,
    (optimizar_prestamos sort_values df capital pesos h).1
      = Return (aprobados, rechazados, restante) ∧
    ∀ i r', (i, r') ∈ aprobados ++ rechazados →
      ∃ r, (i, r) ∈ d ∧
        IPS r' = Some (w_v w * V_Viabilidad r +
                       w_c w * C_Cohesion_Grupo r +
                       w_i w * I_Impacto_Comunitario r +
                       w_n w * N_Nivel_Necesidad r +
                       w_e w * E_Compromiso r)%Q ∧
        V_Viabilidad r' = V_Viabilidad r ∧
        C_Cohesion_Grupo r' = C_Cohesion_Grupo r ∧
        I_Impacto_Comunitario r' = I_Impacto_Comunitario r ∧
        N_Nivel_Necesidad r' = N_Nivel_Necesidad r ∧
        E_Compromiso r' = E_Compromiso r.
Proof.
  intros Hd Hw.
  rewrite (optimizar_prestamos_run sort_values _ _ _ _ _ _ Hd Hw).
  do 3 eexists. split; [done|]. intros i r' Hin.
  assert ((i, r') ∈ puntuar w d) as Hin'.
  { apply elem_of_app in Hin as [Hin|Hin];
      eauto using elem_of_loc_rows, elem_of_drop_rows. }
  apply elem_of_puntuar in Hin' as (r & Hr & ->).
  exists r. by split.
Qed.

(** C5, as amended.  The division by the requested amount is not guarded:
    for an amount of 0 it raises nothing and stores an infinity (or NaN for
    a score of 0) as the efficiency, and the request stays in the ranking.
    When the budget is not negative such a request is approved, never
    waitlisted. *)
Theorem zero_amount_is_approved df capital pesos h d w i r :
  h !! df = Some d → tiene_pesos pesos w → NoDup (labels d) →
  0 ≤ capital → (i, r) ∈ d → Monto_Solicitado r = 0 →
  ∃ aprobados rechazados restante,
    (optimizar_prestamos sort_values df capital pesos h).1
      = Return (aprobados, rechazados, restante) ∧
    (i, puntuar_fila w r) ∈ aprobados ∧
    (i ∉ labels rechazados) ∧
    Eficiencia_Solidaria (puntuar_fila w r)
      = Some (match (compute_IPS w r ?= 0)%Q with
              | Gt => PInf
              | Lt => NInf
              | Eq => NaN
              end).
Proof.
  intros Hd Hw Hnd Hcap Hin Hzero.
  destruct (optimizar_prestamos_walk sort_values sort_values_perm
              df capital pesos h d w Hd Hw Hnd)
    as (a & e & c & Hrun & Hwalk & Hdrop).
  exists a, (drop_rows (puntuar w d) (labels a)), c. rewrite Hrun.
  assert ((i, puntuar_fila w r) ∈ a) as Ha.
  { eapply walk_zero_approved; [done..| |done].
    rewrite sort_values_perm. apply elem_of_puntuar. eauto. }
  split_and!; try done.
  - intros Hr. apply list_elem_of_fmap in Hr as ([j x] & -> & Hx).
    apply list_elem_of_filter in Hx as [Hx _]. apply Hx.
    by apply (elem_of_labels _ _ Ha).
  - simpl. unfold row_eficiencia, truediv. simpl. rewrite Hzero.
    by rewrite decide_True.
Qed.


(** C7, as amended.  The budget is not validated: a call with a negative
    budget runs like any other and returns.  When no amount is negative
    it approves nothing, waitlists every request in input order and
    returns the negative budget as the remaining capital; a request that
    asks for 0 is in the waitlisted table with an infinity or NaN as its
    efficiency, and nothing is raised for it. *)
Theorem negative_budget_not_rejected df capital pesos h d w :
  h !! df = Some d → tiene_pesos pesos w →
  capital < 0 → Forall (λ ir, 0 ≤ Monto_Solicitado ir.2) d →
  optimizar_prestamos sort_values df capital pesos h
    = (Return ([], puntuar w d, capital), <[df := puntuar w d]> h) ∧
  (∀ i r, (i, r) ∈ d → Monto_Solicitado r = 0 →
     ∃ r', (i, r') ∈ puntuar w d ∧
       Eficiencia_Solidaria r'
         = Some (match (compute_IPS w r ?= 0)%Q with
                 | Gt => PInf
                 | Lt => NInf
                 | Eq => NaN
                 end)).
Proof.
  intros Hd Hw Hneg Hall. split.
  - rewrite (optimizar_prestamos_run sort_values _ _ _ _ _ _ Hd Hw).
    unfold seleccionar. rewrite foldl_paso_none.
    + simpl. by rewrite drop_rows_nil.
    + rewrite sort_values_perm. apply Forall_forall. intros [i r'] Hin.
      apply elem_of_puntuar in Hin as (r & Hr & ->).
      eapply Forall_forall in Hall; [|done]. simpl in *. lia.
  - intros i r Hin Hzero. exists (puntuar_fila w r). split.
    + apply elem_of_puntuar. eauto.
    + simpl. unfold row_eficiencia, truediv. simpl. rewrite Hzero.
      by rewrite decide_True.
Qed.

(** C8, as amended.  The engine assigns the two derived columns to the
    table object it is given: after the call that object holds the rows of
    before, same labels and order, each with its IPS and its efficiency
    filled in and its other cells as they were; no other object changes.
    The table of the main script is unchanged because the script passes
    a copy of it. *)
Theorem optimizar_prestamos_mutates_argument df capital pesos h d w :
  h !! df = Some d → tiene_pesos pesos w →
  (optimizar_prestamos sort_values df capital pesos h).2
    = <[df := (λ ir, (ir.1, puntuar_fila w ir.2)) <$> d]> h ∧
  (∀ r,
     IPS (puntuar_fila w r) = Some (compute_IPS w r) ∧
     Eficiencia_Solidaria (puntuar_fila w r)
       = Some (truediv (compute_IPS w r) (Monto_Solicitado r)) ∧
     ID_Proyecto (puntuar_fila w r) = ID_Proyecto r ∧
     Nombre_Proyecto (puntuar_fila w r) = Nombre_Proyecto r ∧
     Monto_Solicitado (puntuar_fila w r) = Monto_Solicitado r ∧
     V_Viabilidad (puntuar_fila w r) = V_Viabilidad r ∧
     C_Cohesion_Grupo (puntuar_fila w r) = C_Cohesion_Grupo r ∧
     I_Impacto_Comunitario (puntuar_fila w r) = I_Impacto_Comunitario r ∧
     N_Nivel_Necesidad (puntuar_fila w r) = N_Nivel_Necesidad r ∧
     E_Compromiso (puntuar_fila w r) = E_Compromiso r) ∧
  (∀ l, l ≠ df →
     (optimizar_prestamos sort_values df capital pesos h).2 !! l = h !! l) ∧
  (∀ l, is_Some (h !! l) →
     (llamada_principal sort_values df capital pesos h).2 !! l = h !! l).
Proof.
  intros Hd Hw.
  rewrite (optimizar_prestamos_run sort_values _ _ _ _ _ _ Hd Hw). simpl.
  split_and!.
  - by rewrite puntuar_fmap.
  - done.
  - intros l Hl. by rewrite lookup_insert_ne.
  - intros l Hl. unfold llamada_principal, copy, py_bind, load.
    rewrite Hd.
    rewrite (optimizar_prestamos_run sort_values _ _ _ _ d w);
      [|by rewrite lookup_insert_eq|done].
    simpl. rewrite insert_insert_eq, lookup_insert_ne; [done|].
    intros <-. apply (is_fresh (dom h)). by apply elem_of_dom.
Qed.

(** C9. The result of a call is determined by the rows of the table, the
    budget and the weights: two calls on tables with the same rows, in
    whatever heaps, end alike, and calling again on the table the first
    call has left gives the same result once more. *)
Theorem optimizar_prestamos_deterministic
    df1 df2 capital pesos (h1 h2 : heap) d :
  h1 !! df1 = Some d → h2 !! df2 = Some d →
  (optimizar_prestamos sort_values df1 capital pesos h1).1
    = (optimizar_prestamos sort_values df2 capital pesos h2).1 ∧
  (optimizar_prestamos sort_values df1 capital pesos
     (optimizar_prestamos sort_values df1 capital pesos h1).2).1
    = (optimizar_prestamos sort_values df1 capital pesos h1).1.
Proof.
  intros Hd1 Hd2. destruct (leer_pesos_pure pesos) as [[w|e] Ho].
  - pose proof (leer_pesos_Return _ _ _ _ (Ho h1)) as Hw.
    rewrite (optimizar_prestamos_run sort_values _ _ _ _ _ _ Hd1 Hw).
    rewrite (optimizar_prestamos_run sort_values _ _ _ _ _ _ Hd2 Hw).
    split; [done|]. simpl.
    rewrite (optimizar_prestamos_run sort_values _ _ _ _ (puntuar w d) w);
      [|by rewrite lookup_insert_eq|done].
    by rewrite puntuar_idemp.
  - rewrite !(optimizar_prestamos_raise _ _ _ _ _ e) by apply Ho.
    by split.
Qed.

(** C10. The waitlisted table lists, in the order of the input table, the
    rows whose label was not approved: it is the input order that it
    carries, not the order of the ranking. *)
Theorem rechazados_input_order df capital pesos h d w :
  h !! df = Some d → tiene_pesos pesos w → NoDup (labels d) →
  ∃ aprobados rechazados restante,
    (optimizar_prestamos sort_values df capital pesos h).1
      = Return (aprobados, rechazados, restante) ∧
    rechazados = filter (λ ir, ir.1 ∉ labels aprobados) (puntuar w d) ∧
    sublist rechazados (puntuar w d) ∧
    sublist (labels rechazados) (labels d).
Proof.
  intros Hd Hw Hnd.
  destruct (optimizar_prestamos_walk sort_values sort_values_perm
              df capital pesos h d w Hd Hw Hnd)
    as (a & e & c & Hrun & Hwalk & Hdrop).
  exists a, (drop_rows (puntuar w d) (labels a)), c. rewrite Hrun.
  split_and!; try done.
  - apply sublist_filter.
  - rewrite <- (labels_puntuar w d). unfold labels, drop_rows.
    apply fmap_sublist, sublist_filter.
Qed.

End Claims.

(** ** The claims on the demonstration tables

    Each statement below instantiates a claim with the stable insertion
    sort (the library quicksort for the claim on ties), the default
    weights and one of the demonstration tables. *)

Lemma optimizar_prestamos_greedy_walk_witness :
  heap_demo !! 1%positive = Some solicitudes_demo ∧
  tiene_pesos pesos_demo w_demo ∧
  NoDup (labels solicitudes_demo) ∧
  ∃ aprobados rechazados restante espera,
    (optimizar_prestamos sort_values_stable 1%positive 3800
       pesos_demo heap_demo).1
      = Return (aprobados, rechazados, restante) ∧
    walk 3800 (sort_values_stable (puntuar w_demo solicitudes_demo))
      aprobados espera restante ∧
    rechazados ≡ₚ espera ∧
    sublist aprobados (sort_values_stable (puntuar w_demo solicitudes_demo)) ∧
    StronglySorted desc aprobados.
Proof.
  assert (heap_demo !! 1%positive = Some solicitudes_demo) as H1
    by reflexivity.
  assert (tiene_pesos pesos_demo w_demo) as H2 by (vm_compute; tauto).
  assert (NoDup (labels solicitudes_demo)) as H3 by compute_done.
  split_and!; [done..|].
  exact (optimizar_prestamos_greedy_walk sort_values_stable
           sort_values_stable_perm sort_values_stable_sorted
           1%positive 3800 pesos_demo heap_demo solicitudes_demo w_demo
           H1 H2 H3).
Defined.

Lemma optimizar_prestamos_conservation_witness :
  heap_demo !! 1%positive = Some solicitudes_demo ∧
  tiene_pesos pesos_demo w_demo ∧
  NoDup (labels solicitudes_demo) ∧
  ∃ aprobados rechazados restante,
    (optimizar_prestamos sort_values_stable 1%positive 3800
       pesos_demo heap_demo).1
      = Return (aprobados, rechazados, restante) ∧
    restante = 3800 - suma_montos aprobados ∧
    (0 ≤ 3800 → 0 ≤ restante ∧ suma_montos aprobados ≤ 3800).
Proof.
  assert (heap_demo !! 1%positive = Some solicitudes_demo) as H1
    by reflexivity.
  assert (tiene_pesos pesos_demo w_demo) as H2 by (vm_compute; tauto).
  assert (NoDup (labels solicitudes_demo)) as H3 by compute_done.
  split_and!; [done..|].
  exact (optimizar_prestamos_conservation sort_values_stable
           sort_values_stable_perm
           1%positive 3800 pesos_demo heap_demo solicitudes_demo w_demo
           H1 H2 H3).
Defined.

Lemma optimizar_prestamos_partition_witness :
  heap_demo !! 1%positive = Some solicitudes_demo ∧
  tiene_pesos pesos_demo w_demo ∧
  NoDup (labels solicitudes_demo) ∧
  ∃ aprobados rechazados restante,
    (optimizar_prestamos sort_values_stable 1%positive 3800
       pesos_demo heap_demo).1
      = Return (aprobados, rechazados, restante) ∧
    (length aprobados + length rechazados = length solicitudes_demo)%nat ∧
    aprobados ++ rechazados ≡ₚ puntuar w_demo solicitudes_demo ∧
    (λ ir, ID_Proyecto ir.2) <$> (aprobados ++ rechazados)
      ≡ₚ (λ ir, ID_Proyecto ir.2) <$> solicitudes_demo ∧
    labels aprobados ++ labels rechazados ≡ₚ labels solicitudes_demo ∧
    (∀ i, i ∈ labels solicitudes_demo →
       (i ∈ labels aprobados ∧ i ∉ labels rechazados) ∨
       ((i ∉ labels aprobados) ∧ i ∈ labels rechazados)).
Proof.
  assert (heap_demo !! 1%positive = Some solicitudes_demo) as H1
    by reflexivity.
  assert (tiene_pesos pesos_demo w_demo) as H2 by (vm_compute; tauto).
  assert (NoDup (labels solicitudes_demo)) as H3 by compute_done.
  split_and!; [done..|].
  exact (optimizar_prestamos_partition sort_values_stable
           sort_values_stable_perm
           1%positive 3800 pesos_demo heap_demo solicitudes_demo w_demo
           H1 H2 H3).
Defined.

Lemma rechazados_input_order_witness :
  heap_demo !! 1%positive = Some solicitudes_demo ∧
  tiene_pesos pesos_demo w_demo ∧
  NoDup (labels solicitudes_demo) ∧
  ∃ aprobados rechazados restante,
    (optimizar_prestamos sort_values_stable 1%positive 3800
       pesos_demo heap_demo).1
      = Return (aprobados, rechazados, restante) ∧
    rechazados
      = filter (λ ir, ir.1 ∉ labels aprobados)
          (puntuar w_demo solicitudes_demo) ∧
    sublist rechazados (puntuar w_demo solicitudes_demo) ∧
    sublist (labels rechazados) (labels solicitudes_demo).
Proof.
  assert (heap_demo !! 1%positive = Some solicitudes_demo) as H1
    by reflexivity.
  assert (tiene_pesos pesos_demo w_demo) as H2 by (vm_compute; tauto).
  assert (NoDup (labels solicitudes_demo)) as H3 by compute_done.
  split_and!; [done..|].
  exact (rechazados_input_order sort_values_stable
           sort_values_stable_perm
           1%positive 3800 pesos_demo heap_demo solicitudes_demo w_demo
           H1 H2 H3).
Defined.

Lemma optimizar_prestamos_IPS_dot_product_witness :
  heap_demo !! 1%positive = Some solicitudes_demo ∧
  tiene_pesos pesos_demo w_demo ∧
  ∃ aprobados rechazados restante,
    (optimizar_prestamos sort_values_stable 1%positive 3800
       pesos_demo heap_demo).1
      = Return (aprobados, rechazados, restante) ∧
    ∀ i r', (i, r') ∈ aprobados ++ rechazados →
      ∃ r, (i, r) ∈ solicitudes_demo ∧
        IPS r' = Some ((3 # 10) * V_Viabilidad r +
                       (2 # 10) * C_Cohesion_Grupo r +
                       (2 # 10) * I_Impacto_Comunitario r +
                       (2 # 10) * N_Nivel_Necesidad r +
                       (1 # 10) * E_Compromiso r)%Q ∧
        V_Viabilidad r' = V_Viabilidad r ∧
        C_Cohesion_Grupo r' = C_Cohesion_Grupo r ∧
        I_Impacto_Comunitario r' = I_Impacto_Comunitario r ∧
        N_Nivel_Necesidad r' = N_Nivel_Necesidad r ∧
        E_Compromiso r' = E_Compromiso r.
Proof.
  assert (heap_demo !! 1%positive = Some solicitudes_demo) as H1
    by reflexivity.
  assert (tiene_pesos pesos_demo w_demo) as H2 by (vm_compute; tauto).
  split_and!; [done..|].
  exact (optimizar_prestamos_IPS_dot_product sort_values_stable
           1%positive 3800 pesos_demo heap_demo solicitudes_demo w_demo
           H1 H2).
Defined.

(** C5, the claim as stated fails: with a budget of 0 the request that
    asks for 0 is approved, and its efficiency cell holds an infinity. *)
Lemma zero_amount_approved_cex :
  ∃ aprobados rechazados restante ir,
    (optimizar_prestamos sort_values_stable 1%positive 0
       pesos_demo heap_cero).1
      = Return (aprobados, rechazados, restante) ∧
    ir ∈ aprobados ∧
    Monto_Solicitado ir.2 = 0 ∧
    Eficiencia_Solidaria ir.2 = Some PInf.
Proof.
  do 3 eexists.
  exists (0, puntuar_fila w_demo (solicitud 1 "Reciclaje Creativo" 0 5 5 5 5 5)).
  split_and!; [vm_compute; reflexivity|by left|done|done].
Qed.

Lemma zero_amount_is_approved_witness :
  heap_cero !! 1%positive = Some solicitudes_cero ∧
  tiene_pesos pesos_demo w_demo ∧
  NoDup (labels solicitudes_cero) ∧
  0 ≤ 100 ∧
  (0, solicitud 1 "Reciclaje Creativo" 0 5 5 5 5 5) ∈ solicitudes_cero ∧
  Monto_Solicitado (solicitud 1 "Reciclaje Creativo" 0 5 5 5 5 5) = 0 ∧
  ∃ aprobados rechazados restante,
    (optimizar_prestamos sort_values_stable 1%positive 100
       pesos_demo heap_cero).1
      = Return (aprobados, rechazados, restante) ∧
    (0, puntuar_fila w_demo (solicitud 1 "Reciclaje Creativo" 0 5 5 5 5 5))
      ∈ aprobados ∧
    (0 ∉ labels rechazados) ∧
    Eficiencia_Solidaria
      (puntuar_fila w_demo (solicitud 1 "Reciclaje Creativo" 0 5 5 5 5 5))
      = Some (match (compute_IPS w_demo
                       (solicitud 1 "Reciclaje Creativo" 0 5 5 5 5 5) ?= 0)%Q
              with
              | Gt => PInf
              | Lt => NInf
              | Eq => NaN
              end).
Proof.
  assert (heap_cero !! 1%positive = Some solicitudes_cero) as H1
    by reflexivity.
  assert (tiene_pesos pesos_demo w_demo) as H2 by (vm_compute; tauto).
  assert (NoDup (labels solicitudes_cero)) as H3 by compute_done.
  assert (0 ≤ 100) as H4 by lia.
  assert ((0, solicitud 1 "Reciclaje Creativo" 0 5 5 5 5 5)
            ∈ solicitudes_cero) as H5 by (by left).
  assert (Monto_Solicitado (solicitud 1 "Reciclaje Creativo" 0 5 5 5 5 5) = 0)
    as H6 by reflexivity.
  split_and!; [done..|].
  exact (zero_amount_is_approved sort_values_stable sort_values_stable_perm
           1%positive 100 pesos_demo heap_cero solicitudes_cero w_demo
           0 _ H1 H2 H3 H4 H5 H6).
Defined.



(** C7, the claim as stated fails: a call with the budget -1 is not
    rejected, it returns a complete result. *)
Lemma negative_budget_returns_cex :
  (optimizar_prestamos sort_values_stable 1%positive (-1)
     pesos_demo heap_demo).1
    = Return ([], puntuar w_demo solicitudes_demo, -1).
Proof. by vm_compute. Qed.

Lemma negative_budget_not_rejected_witness :
  heap_cero !! 1%positive = Some solicitudes_cero ∧
  tiene_pesos pesos_demo w_demo ∧
  -1 < 0 ∧
  Forall (λ ir, 0 ≤ Monto_Solicitado ir.2) solicitudes_cero ∧
  optimizar_prestamos sort_values_stable 1%positive (-1) pesos_demo heap_cero
    = (Return ([], puntuar w_demo solicitudes_cero, -1),
       <[1%positive := puntuar w_demo solicitudes_cero]> heap_cero) ∧
  (∀ i r, (i, r) ∈ solicitudes_cero → Monto_Solicitado r = 0 →
     ∃ r', (i, r') ∈ puntuar w_demo solicitudes_cero ∧
       Eficiencia_Solidaria r'
         = Some (match (compute_IPS w_demo r ?= 0)%Q with
                 | Gt => PInf
                 | Lt => NInf
                 | Eq => NaN
                 end)).
Proof.
  assert (heap_cero !! 1%positive = Some solicitudes_cero) as H1
    by reflexivity.
  assert (tiene_pesos pesos_demo w_demo) as H2 by (vm_compute; tauto).
  assert (-1 < 0) as H3 by lia.
  assert (Forall (λ ir, 0 ≤ Monto_Solicitado ir.2) solicitudes_cero) as H4
    by (repeat constructor; simpl; lia).
  do 4 (split; [assumption|]).
  exact (negative_budget_not_rejected sort_values_stable
           sort_values_stable_perm
           1%positive (-1) pesos_demo heap_cero solicitudes_cero w_demo
           H1 H2 H3 H4).
Defined.

(** C8, the claim as stated fails: the table passed to the engine has no
    IPS column before the call, and the same object has one after it. *)
Lemma argument_mutated_cex :
  heap_demo !! 1%positive = Some solicitudes_demo ∧
  (optimizar_prestamos sort_values_stable 1%positive 3800
     pesos_demo heap_demo).2 !! 1%positive
    = Some (puntuar w_demo solicitudes_demo) ∧
  (λ ir, IPS ir.2) <$> solicitudes_demo = [None; None; None; None] ∧
  (λ ir, IPS ir.2) <$> puntuar w_demo solicitudes_demo
    = [Some (compute_IPS w_demo (solicitud 1 "Taller de Costura" 2000 8 6 7 5 9));
       Some (compute_IPS w_demo
               (solicitud 2 "Servicio de Reparaciones" 500 5 5 5 5 5));
       Some (compute_IPS w_demo
               (solicitud 3 "Clases de Refuerzo" 2500 9 9 9 9 9));
       Some (compute_IPS w_demo
               (solicitud 4 "Venta de Comida" 1000 10 10 10 10 10))].
Proof. split_and!; by vm_compute. Qed.

Lemma optimizar_prestamos_mutates_argument_witness :
  heap_demo !! 1%positive = Some solicitudes_demo ∧
  tiene_pesos pesos_demo w_demo ∧
  (optimizar_prestamos sort_values_stable 1%positive 3800
     pesos_demo heap_demo).2
    = <[1%positive := (λ ir, (ir.1, puntuar_fila w_demo ir.2))
                        <$> solicitudes_demo]> heap_demo ∧
  (∀ l, l ≠ 1%positive →
     (optimizar_prestamos sort_values_stable 1%positive 3800
        pesos_demo heap_demo).2 !! l = heap_demo !! l) ∧
  (∀ l, is_Some (heap_demo !! l) →
     (llamada_principal sort_values_stable 1%positive 3800
        pesos_demo heap_demo).2 !! l = heap_demo !! l).
Proof.
  assert (heap_demo !! 1%positive = Some solicitudes_demo) as H1
    by reflexivity.
  assert (tiene_pesos pesos_demo w_demo) as H2 by (vm_compute; tauto).
  destruct (optimizar_prestamos_mutates_argument sort_values_stable
              1%positive 3800 pesos_demo heap_demo solicitudes_demo w_demo
              H1 H2) as (Ha & _ & Hb & Hc).
  by split_and!.
Defined.

Lemma optimizar_prestamos_deterministic_witness :
  heap_demo !! 1%positive = Some solicitudes_demo ∧
  heap_demo2 !! 2%positive = Some solicitudes_demo ∧
  (optimizar_prestamos sort_values_stable 1%positive 3800
     pesos_demo heap_demo).1
    = (optimizar_prestamos sort_values_stable 2%positive 3800
         pesos_demo heap_demo2).1 ∧
  (optimizar_prestamos sort_values_stable 1%positive 3800 pesos_demo
     (optimizar_prestamos sort_values_stable 1%positive 3800
        pesos_demo heap_demo).2).1
    = (optimizar_prestamos sort_values_stable 1%positive 3800
         pesos_demo heap_demo).1.
Proof.
  assert (heap_demo !! 1%positive = Some solicitudes_demo) as H1
    by reflexivity.
  assert (heap_demo2 !! 2%positive = Some solicitudes_demo) as H2
    by reflexivity.
  split_and!; [done..| |];
    apply (optimizar_prestamos_deterministic sort_values_stable
             1%positive 2%positive 3800 pesos_demo heap_demo heap_demo2
             solicitudes_demo H1 H2).
Defined.

(** With a budget of 0 every request of the demonstration table is
    waitlisted; the waitlisted table lists them as the input does, 0 to 3,
    while the ranking puts them in the order 1, 3, 2, 0. *)
Example rechazados_not_ranked :
  ∃ aprobados rechazados restante,
    (optimizar_prestamos sort_values_stable 1%positive 0
       pesos_demo heap_demo).1
      = Return (aprobados, rechazados, restante) ∧
    labels rechazados = [0; 1; 2; 3] ∧
    labels (sort_values_stable (puntuar w_demo solicitudes_demo))
      = [1; 3; 2; 0].
Proof. do 3 eexists. split_and!; [vm_compute; reflexivity|by vm_compute..]. Qed.

(** * Further properties of the engine *)

Lemma suma_montos_perm (l k : DataFrame) :
  l ≡ₚ k → suma_montos l = suma_montos k.
Proof. induction 1; simpl in *; lia. Qed.

Lemma suma_montos_puntuar w df : suma_montos (puntuar w df) = suma_montos df.
Proof.
  rewrite puntuar_fmap. induction df as [|[i r] df IH]; [done|].
  simpl. f_equal. exact IH.
Qed.

Lemma Forall_monto_puntuar (P : Z → Prop) w (df : DataFrame) :
  Forall (λ ir, P (Monto_Solicitado ir.2)) df →
  Forall (λ ir, P (Monto_Solicitado ir.2)) (puntuar w df).
Proof.
  rewrite puntuar_fmap. induction 1 as [|[i r] df Hr _ IH]; simpl;
    by constructor.
Qed.

Lemma walk_all c s a w c' :
  walk c s a w c' →
  Forall (λ ir, 0 ≤ Monto_Solicitado ir.2) s → suma_montos s ≤ c →
  a = s ∧ w = [].
Proof.
  induction 1 as [|c ir s a w c' Hle _ IH|c ir s a w c' Hlt _ IH];
    intros Hall Hsum.
  - done.
  - apply Forall_cons in Hall as [Hir Hall]. simpl in Hsum.
    destruct IH as [-> ->]; [done|lia|done].
  - apply Forall_cons in Hall as [Hir Hall]. simpl in Hsum.
    assert (0 ≤ suma_montos s); [|lia].
    clear -Hall. induction Hall; simpl; lia.
Qed.

Lemma walk_decreasing c s a w c' :
  walk c s a w c' →
  Forall (λ ir, 0 ≤ Monto_Solicitado ir.2) s → c' ≤ c.
Proof.
  induction 1 as [|c ir s a w c' Hle _ IH|c ir s a w c' Hlt _ IH];
    intros Hall; [done| |];
    apply Forall_cons in Hall as [Hir Hall]; specialize (IH Hall); lia.
Qed.

Lemma walk_waitlisted_does_not_fit c s a w c' :
  walk c s a w c' →
  Forall (λ ir, 0 ≤ Monto_Solicitado ir.2) s →
  Forall (λ ir, c' < Monto_Solicitado ir.2) w.
Proof.
  induction 1 as [|c ir s a w c' Hle _ IH|c ir s a w c' Hlt Hw IH];
    intros Hall; [done| |];
    apply Forall_cons in Hall as [Hir Hall].
  - auto.
  - constructor; [|auto].
    pose proof (walk_decreasing _ _ _ _ _ Hw Hall). lia.
Qed.

Section Extras.

Variable sort_values : DataFrame → DataFrame.
Hypothesis sort_values_perm : ∀ df, sort_values df ≡ₚ df.

(** X1.  A call whose dictionary lacks one of the five weights raises the
    [KeyError] of the first key that is missing, in the order [w_v],
    [w_c], [w_i], [w_n], [w_e], and leaves the heap, the table included,
    as it was. *)
Theorem missing_weight_raises df capital pesos h antes k despues :
  claves = antes ++ k :: despues →
  Forall (λ c, is_Some (pesos !! c)) antes →
  pesos !! k = None →
  optimizar_prestamos sort_values df capital pesos h = (Raise (KeyError k), h).
Proof.
  intros Hk Hantes Hnone. apply optimizar_prestamos_raise.
  unfold leer_pesos, py_bind, getitem. unfold claves in Hk.
  destruct antes as [|a1 [|a2 [|a3 [|a4 [|a5 antes]]]]]; simplify_eq/=;
    try (by destruct antes);
    repeat match goal with
           | H : Forall _ (_ :: _) |- _ =>
               apply Forall_cons in H as [[? ->] H]
           end;
    simpl; by rewrite Hnone.
Qed.

(** X2.  On a table without rows the call approves and waitlists nothing and
    returns the whole budget, whatever the budget. *)
Theorem empty_table df capital pesos h w :
  h !! df = Some [] → tiene_pesos pesos w →
  (optimizar_prestamos sort_values df capital pesos h).1
    = Return ([], [], capital).
Proof.
  intros Hd Hw.
  rewrite (optimizar_prestamos_run sort_values _ _ _ _ _ _ Hd Hw).
  change (puntuar w []) with (@nil (Z * Row)).
  assert (sort_values [] = []) as ->.
  { apply Permutation_nil_r. apply sort_values_perm. }
  done.
Qed.

(** X3.  When every request asks for more than the budget, nothing is
    approved: the waitlisted table is the whole scored table in input
    order and the budget comes back untouched.  A budget of 0 with
    positive amounts is the case in point. *)
Theorem insufficient_capital df capital pesos h d w :
  h !! df = Some d → tiene_pesos pesos w →
  Forall (λ ir, capital < Monto_Solicitado ir.2) d →
  (optimizar_prestamos sort_values df capital pesos h).1
    = Return ([], puntuar w d, capital).
Proof.
  intros Hd Hw Hall.
  rewrite (optimizar_prestamos_run sort_values _ _ _ _ _ _ Hd Hw).
  unfold seleccionar. rewrite foldl_paso_none.
  - simpl. by rewrite drop_rows_nil.
  - rewrite sort_values_perm. by apply Forall_monto_puntuar.
Qed.

(** X4.  When no amount is negative and the budget covers the sum of all
    amounts, every request is approved: the approved table is the whole
    ranking, the waitlisted table is empty and what remains is the budget
    minus the sum of all amounts. *)
Theorem sufficient_capital df capital pesos h d w :
  h !! df = Some d → tiene_pesos pesos w → NoDup (labels d) →
  Forall (λ ir, 0 ≤ Monto_Solicitado ir.2) d →
  suma_montos d ≤ capital →
  (optimizar_prestamos sort_values df capital pesos h).1
    = Return (sort_values (puntuar w d), [], capital - suma_montos d).
Proof.
  intros Hd Hw Hnd Hall Hsum.
  destruct (optimizar_prestamos_walk sort_values sort_values_perm
              df capital pesos h d w Hd Hw Hnd)
    as (a & e & c & Hrun & Hwalk & Hdrop).
  rewrite Hrun. simpl.
  assert (suma_montos (sort_values (puntuar w d)) = suma_montos d) as Hs.
  { by rewrite (suma_montos_perm _ _ (sort_values_perm _)),
               suma_montos_puntuar. }
  destruct (walk_all _ _ _ _ _ Hwalk) as [-> ->].
  - rewrite sort_values_perm. by apply Forall_monto_puntuar.
  - lia.
  - apply Permutation_nil_r in Hdrop. rewrite Hdrop.
    by rewrite (walk_conservation _ _ _ _ _ Hwalk), Hs.
Qed.

(** X5.  When no amount is negative, no waitlisted request fits in what is
    left: each one asks for more than the remaining capital returned. *)
Theorem waitlisted_exceed_remaining df capital pesos h d w :
  h !! df = Some d → tiene_pesos pesos w → NoDup (labels d) →
  Forall (λ ir, 0 ≤ Monto_Solicitado ir.2) d →
  ∃ aprobados rechazados restante,
    (optimizar_prestamos sort_values df capital pesos h).1
      = Return (aprobados, rechazados, restante) ∧
    Forall (λ ir, restante < Monto_Solicitado ir.2) rechazados.
Proof.
  intros Hd Hw Hnd Hall.
  destruct (optimizar_prestamos_walk sort_values sort_values_perm
              df capital pesos h d w Hd Hw Hnd)
    as (a & e & c & Hrun & Hwalk & Hdrop).
  rewrite Hrun. do 3 eexists. split; [done|].
  rewrite Hdrop. eapply walk_waitlisted_does_not_fit; [done|].
  rewrite sort_values_perm. by apply Forall_monto_puntuar.
Qed.

(** X7.  When no request asks for 0, no infinity and no NaN reaches the
    tables returned: the efficiency of every row is the quotient of its
    IPS by its amount. *)
Theorem nonzero_amounts_finite_efficiency df capital pesos h d w :
  h !! df = Some d → tiene_pesos pesos w →
  Forall (λ ir, Monto_Solicitado ir.2 ≠ 0) d →
  ∃ aprobados rechazados restante,
    (optimizar_prestamos sort_values df capital pesos h).1
      = Return (aprobados, rechazados, restante) ∧
    ∀ i r', (i, r') ∈ aprobados ++ rechazados →
      ∃ r, (i, r) ∈ d ∧
        Eficiencia_Solidaria r'
          = Some (Fin (compute_IPS w r / inject_Z (Monto_Solicitado r))).
Proof.
  intros Hd Hw Hall.
  rewrite (optimizar_prestamos_run sort_values _ _ _ _ _ _ Hd Hw).
  do 3 eexists. split; [done|]. intros i r' Hin.
  assert ((i, r') ∈ puntuar w d) as Hin'.
  { apply elem_of_app in Hin as [Hin|Hin];
      eauto using elem_of_loc_rows, elem_of_drop_rows. }
  apply elem_of_puntuar in Hin' as (r & Hr & ->).
  exists r. split; [done|].
  eapply Forall_forall in Hall; [|done]. simpl in Hall.
  simpl. unfold row_eficiencia, truediv. simpl. by rewrite decide_False.
Qed.

(** X6.  The request at the head of the ranking is approved exactly when its
    amount is at most the budget, and waitlisted exactly when it is more:
    nothing ranked below it can take its place. *)
Theorem top_ranked_approved_iff_fits df capital pesos h d w ir s :
  h !! df = Some d → tiene_pesos pesos w → NoDup (labels d) →
  sort_values (puntuar w d) = ir :: s →
  ∃ aprobados rechazados restante,
    (optimizar_prestamos sort_values df capital pesos h).1
      = Return (aprobados, rechazados, restante) ∧
    (ir ∈ aprobados ↔ Monto_Solicitado ir.2 ≤ capital) ∧
    (ir ∈ rechazados ↔ capital < Monto_Solicitado ir.2).
Proof.
  intros Hd Hw Hnd Hs.
  destruct (optimizar_prestamos_walk sort_values sort_values_perm
              df capital pesos h d w Hd Hw Hnd)
    as (a & e & c & Hrun & Hwalk & Hdrop).
  rewrite Hrun. do 3 eexists. split; [done|]. rewrite Hdrop.
  assert (ir ∉ s) as Hnotin.
  { assert (NoDup (labels (ir :: s))) as Hnd'.
    { rewrite <- Hs. unfold labels. rewrite sort_values_perm.
      fold (labels (puntuar w d)). by rewrite labels_puntuar. }
    simpl in Hnd'. apply NoDup_cons in Hnd' as [Hni _].
    intros Hin. by apply Hni, elem_of_labels. }
  rewrite Hs in Hwalk. inversion Hwalk as [|? ? ? a' ? ? Hle Hw'|? ? ? ? e' ? Hlt Hw']; subst.
  - split; split; intros H; try lia; [by left|].
    exfalso. apply Hnotin. eapply elem_of_sublist; [done|].
    by eapply walk_sublist_waitlisted.
  - split; split; intros H; try lia; [|by left].
    exfalso. apply Hnotin. eapply elem_of_sublist; [done|].
    by eapply walk_sublist_approved.
Qed.

(** X8.  The engine reads no IPS and no efficiency the table may already hold:
    two tables that differ only in those cells give the same result, and
    the engine leaves the same table behind. *)
Theorem derived_cells_ignored df1 df2 capital pesos (h1 h2 : heap) d1 d2 w :
  h1 !! df1 = Some d1 → h2 !! df2 = Some d2 → tiene_pesos pesos w →
  (λ ir, (ir.1, sin_derivadas ir.2)) <$> d1
    = (λ ir, (ir.1, sin_derivadas ir.2)) <$> d2 →
  (optimizar_prestamos sort_values df1 capital pesos h1).1
    = (optimizar_prestamos sort_values df2 capital pesos h2).1 ∧
  (optimizar_prestamos sort_values df1 capital pesos h1).2 !! df1
    = (optimizar_prestamos sort_values df2 capital pesos h2).2 !! df2.
Proof.
  intros Hd1 Hd2 Hw Heq.
  assert (puntuar w d1 = puntuar w d2) as Hp.
  { rewrite !puntuar_fmap.
    transitivity ((λ ir, (ir.1, puntuar_fila w ir.2))
                    <$> ((λ ir, (ir.1, sin_derivadas ir.2)) <$> d1)).
    - rewrite <- list_fmap_compose. apply list_fmap_ext. by intros _ [i r] _.
    - rewrite Heq, <- list_fmap_compose. apply list_fmap_ext.
      by intros _ [i r] _. }
  rewrite (optimizar_prestamos_run sort_values _ _ _ _ _ _ Hd1 Hw).
  rewrite (optimizar_prestamos_run sort_values _ _ _ _ _ _ Hd2 Hw).
  simpl. rewrite Hp, !lookup_insert_eq. done.
Qed.

End Extras.

(** ** Rescaling the weights *)

Lemma compute_IPS_escalar k w r :
  (compute_IPS (escalar k w) r == k * compute_IPS w r)%Q.
Proof. unfold compute_IPS, escalar. simpl. ring. Qed.

Lemma Qcompare_0_scale (k x x' : Q) :
  (0 < k)%Q → (x' == k * x)%Q → (x' ?= 0)%Q = (x ?= 0)%Q.
Proof.
  intros Hk Hx. destruct (Qcompare_spec x 0) as [H|H|H].
  - apply Qeq_alt. rewrite Hx, H. ring.
  - apply Qlt_alt. rewrite Hx.
    apply (Qlt_le_trans _ (k * 0)); [by apply Qmult_lt_l|].
    rewrite Qmult_0_r. apply Qle_refl.
  - apply Qgt_alt. rewrite Hx.
    apply (Qle_lt_trans _ (k * 0)); [|by apply Qmult_lt_l].
    rewrite Qmult_0_r. apply Qle_refl.
Qed.

Lemma truediv_scale_zero (k x x' : Q) :
  (0 < k)%Q → (x' == k * x)%Q → truediv x' 0 = truediv x 0.
Proof.
  intros Hk Hx. unfold truediv. simpl.
  by rewrite (Qcompare_0_scale k x x').
Qed.

Lemma truediv_nonzero x m : m ≠ 0 → truediv x m = Fin (x / inject_Z m).
Proof. intros. unfold truediv. by rewrite decide_False. Qed.

Lemma Qle_bool_scale (k x x' y y' a b : Q) :
  (0 < k)%Q → (x' == k * x)%Q → (y' == k * y)%Q →
  Qle_bool (y' / b) (x' / a) = Qle_bool (y / b) (x / a).
Proof.
  intros Hk Hx Hy. apply eq_iff_eq_true. rewrite !Qle_bool_iff, Hx, Hy.
  unfold Qdiv. rewrite <- !Qmult_assoc. by apply Qmult_le_l.
Qed.

Lemma precedes_truediv_scale (k x x' y y' : Q) (m n : Z) :
  (0 < k)%Q → (x' == k * x)%Q → (y' == k * y)%Q →
  precedes (truediv x' m) (truediv y' n)
  = precedes (truediv x m) (truediv y n).
Proof.
  intros Hk Hx Hy.
  destruct (decide (m = 0)) as [->|Hm], (decide (n = 0)) as [->|Hn].
  - by rewrite (truediv_scale_zero k x x'), (truediv_scale_zero k y y').
  - rewrite (truediv_scale_zero k x x') by done.
    rewrite !(truediv_nonzero _ n) by done.
    unfold truediv. rewrite decide_True by done. by destruct (x ?= 0)%Q.
  - rewrite (truediv_scale_zero k y y') by done.
    rewrite !(truediv_nonzero _ m) by done.
    unfold truediv. rewrite decide_True by done. by destruct (y ?= 0)%Q.
  - rewrite !(truediv_nonzero _ m), !(truediv_nonzero _ n) by done.
    unfold precedes. simpl. by apply (Qle_bool_scale k).
Qed.

Lemma Sorted_iff {A} (R1 R2 : relation A) (l : list A) :
  (∀ x y, R1 x y ↔ R2 x y) → Sorted R1 l ↔ Sorted R2 l.
Proof.
  intros HR. split; induction 1 as [|x l _ IH Hhd]; constructor; auto;
    destruct Hhd; constructor; by apply HR.
Qed.

(** X9.  Multiplying the five weights by one positive factor multiplies every
    IPS by it and changes no comparison of efficiencies: an order of the
    requests is a ranking under the rescaled weights if and only if it is
    one under the original weights. *)
Theorem rescaled_weights_same_ranking (k : Q) w (l : DataFrame) :
  (0 < k)%Q →
  (∀ r, (compute_IPS (escalar k w) r == k * compute_IPS w r)%Q) ∧
  (Sorted desc (puntuar (escalar k w) l) ↔ Sorted desc (puntuar w l)).
Proof.
  intros Hk. split; [intros; apply compute_IPS_escalar|].
  rewrite !puntuar_fmap.
  assert (∀ f (l : DataFrame),
            Sorted desc (f <$> l) ↔ Sorted (λ x y, desc (f x) (f y)) l) as Hf.
  { intros f l'. split.
    - induction l' as [|x l' IH]; [constructor|]. rewrite fmap_cons.
      intros Hs. apply Sorted_inv in Hs as [Hs Hhd].
      constructor; [auto|]. destruct l'; [constructor|].
      rewrite fmap_cons in Hhd. apply HdRel_inv in Hhd. by constructor.
    - by apply Sorted_fmap. }
  rewrite !Hf. apply Sorted_iff. intros [i r] [j r'].
  unfold desc, eficiencia. simpl. unfold row_eficiencia. simpl.
  by rewrite (precedes_truediv_scale k (compute_IPS w r) _
                (compute_IPS w r') _)
    by (done || apply compute_IPS_escalar).
Qed.

(** * The request generator *)

Lemma Qmake_10 (k : Z) : (k # 10 == inject_Z k * (1 # 10))%Q.
Proof. unfold Qeq. simpl. lia. Qed.

(** [round1 u] is [k/10] for an integer [k] within one half of [10 u]. *)
Lemma round1_spec u :
  ∃ k : Z, round1 u = (k # 10)%Q ∧
    (inject_Z k - (1 # 2) <= u * 10)%Q ∧ (u * 10 <= inject_Z k + (1 # 2))%Q ∧
    Qfloor (u * 10) ≤ k ≤ Qfloor (u * 10) + 1.
Proof.
  unfold round1. set (t := (u * 10)%Q). set (n := Qfloor t).
  pose proof (Qfloor_le t) as Hlo. pose proof (Qlt_floor t) as Hhi.
  fold n in Hlo, Hhi. rewrite inject_Z_plus in Hhi.
  change (inject_Z 1) with 1%Q in Hhi.
  destruct (Qcompare_spec (t - inject_Z n) (1 # 2)) as [H|H|H].
  - destruct (Z.even n); eexists; (split; [reflexivity|]);
      rewrite ?inject_Z_plus; change (inject_Z 1) with 1%Q;
      split_and!; try lia; lra.
  - exists n. split; [done|]. split_and!; try lia; lra.
  - exists (n + 1). split; [done|]. rewrite inject_Z_plus.
    change (inject_Z 1) with 1%Q. split_and!; try lia; lra.
Qed.

Lemma round1_uniforme u :
  uniforme_1_10 u →
  ∃ k : Z, round1 u = (k # 10)%Q ∧ 10 ≤ k ≤ 100 ∧
    (1 <= round1 u)%Q ∧ (round1 u <= 10)%Q ∧
    (- (1 # 20) <= round1 u - u)%Q ∧ (round1 u - u <= 1 # 20)%Q.
Proof.
  intros [Hlo Hhi].
  destruct (round1_spec u) as (k & Hk & Hk1 & Hk2 & Hk3 & Hk4).
  assert (10 ≤ Qfloor (u * 10)) as Hf1.
  { apply (Z.le_trans _ (Qfloor (inject_Z 10))); [by rewrite Qfloor_Z|].
    apply Qfloor_resp_le. change (inject_Z 10) with 10%Q. lra. }
  assert (Qfloor (u * 10) < 100) as Hf2.
  { rewrite Zlt_Qlt. eapply Qle_lt_trans; [apply Qfloor_le|].
    change (inject_Z 100) with 100%Q. lra. }
  exists k. rewrite Hk. pose proof (Qmake_10 k) as E.
  assert (inject_Z 10 <= inject_Z k)%Q as Hk10 by (rewrite <- Zle_Qle; lia).
  assert (inject_Z k <= inject_Z 100)%Q as Hk100 by (rewrite <- Zle_Qle; lia).
  change (inject_Z 10) with 10%Q in Hk10.
  change (inject_Z 100) with 100%Q in Hk100.
  split_and!; try done; try lia; lra.
Qed.

Lemma elem_of_generar n s i r :
  (i, r) ∈ generar_datos_ficticios n s ↔
  ∃ k, (k < n)%nat ∧ i = Z.of_nat k ∧
    r = set_Monto (fila_generada s k).2 (sorteo_monto s k `div` 50 * 50).
Proof.
  unfold generar_datos_ficticios. rewrite <- list_fmap_compose.
  rewrite list_elem_of_fmap. split.
  - intros (k & Heq & Hk). apply elem_of_seq in Hk. simpl in Heq.
    inversion Heq; subst. exists k. split_and!; [lia|done..].
  - intros (k & Hk & -> & ->). exists k. split; [done|].
    apply elem_of_seq. lia.
Qed.

Lemma labels_generar n s :
  labels (generar_datos_ficticios n s) = Z.of_nat <$> seq 0 n.
Proof.
  unfold labels, generar_datos_ficticios.
  rewrite <- !list_fmap_compose. by apply list_fmap_ext.
Qed.

Lemma NoDup_labels_generar n s : NoDup (labels (generar_datos_ficticios n s)).
Proof.
  rewrite labels_generar. apply NoDup_fmap_2; [apply _|]. apply NoDup_seq.
Qed.

(** X10.  The table generated for [n] requests has [n] rows; its labels are
    0 to [n - 1], each once, its project identifiers 1 to [n] in that
    order, and no row has an IPS or an efficiency yet. *)
Theorem generar_datos_ficticios_shape n s :
  length (generar_datos_ficticios n s) = n ∧
  labels (generar_datos_ficticios n s) = Z.of_nat <$> seq 0 n ∧
  NoDup (labels (generar_datos_ficticios n s)) ∧
  (λ ir, ID_Proyecto ir.2) <$> generar_datos_ficticios n s
    = (λ k, Z.of_nat k + 1) <$> seq 0 n ∧
  Forall (λ ir, IPS ir.2 = None ∧ Eficiencia_Solidaria ir.2 = None)
    (generar_datos_ficticios n s).
Proof.
  split_and!.
  - unfold generar_datos_ficticios. by rewrite !length_fmap, length_seq.
  - apply labels_generar.
  - apply NoDup_labels_generar.
  - unfold generar_datos_ficticios. rewrite <- !list_fmap_compose.
    by apply list_fmap_ext.
  - apply Forall_forall. intros [i r] Hin.
    apply elem_of_generar in Hin as (k & _ & _ & ->). done.
Qed.

(** X11.  Every amount of the generated table is the amount drawn, brought down
    to a multiple of 50: it is a multiple of 50 between 500 and 5000 and
    less than 50 below the draw. *)
Theorem generar_datos_ficticios_amounts n s i r :
  sorteo_valido n s → (i, r) ∈ generar_datos_ficticios n s →
  ∃ k, (k < n)%nat ∧ i = Z.of_nat k ∧
    Monto_Solicitado r = sorteo_monto s k `div` 50 * 50 ∧
    Monto_Solicitado r `mod` 50 = 0 ∧
    500 ≤ Monto_Solicitado r ≤ 5000 ∧
    sorteo_monto s k - 50 < Monto_Solicitado r ≤ sorteo_monto s k.
Proof.
  intros Hs Hin. apply elem_of_generar in Hin as (k & Hk & -> & ->).
  destruct (Hs k Hk) as (_ & Hm & _). exists k. simpl.
  pose proof (Z.div_mod (sorteo_monto s k) 50 ltac:(lia)) as Hdm.
  pose proof (Z.mod_pos_bound (sorteo_monto s k) 50 ltac:(lia)) as Hb.
  assert ((sorteo_monto s k `div` 50 * 50) `mod` 50 = 0) as Hmod
    by (apply Z.mod_mul; lia).
  assert (10 ≤ sorteo_monto s k `div` 50) as Hdiv
    by (apply Z.div_le_lower_bound; lia).
  split_and!; try done; lia.
Qed.

(** X12.  Every criterion score of the generated table is the real drawn,
    rounded to one decimal: a multiple of one tenth between 1 and 10, at
    most one twentieth away from the draw. *)
Theorem generar_datos_ficticios_scores n s i r :
  sorteo_valido n s → (i, r) ∈ generar_datos_ficticios n s →
  ∃ k, (k < n)%nat ∧ i = Z.of_nat k ∧
    Forall (λ '(x, u),
              (∃ z : Z, x = (z # 10)%Q ∧ 10 ≤ z ≤ 100) ∧
              (1 <= x)%Q ∧ (x <= 10)%Q ∧
              (- (1 # 20) <= x - u)%Q ∧ (x - u <= 1 # 20)%Q)
      [ (V_Viabilidad r, sorteo_V s k);
        (C_Cohesion_Grupo r, sorteo_C s k);
        (I_Impacto_Comunitario r, sorteo_I s k);
        (N_Nivel_Necesidad r, sorteo_N s k);
        (E_Compromiso r, sorteo_E s k) ].
Proof.
  intros Hs Hin. apply elem_of_generar in Hin as (k & Hk & -> & ->).
  destruct (Hs k Hk) as (_ & _ & HV & HC & HI & HN & HE).
  exists k. split_and!; [done..|]. simpl.
  repeat constructor;
    match goal with
    | |- context [round1 ?u] =>
        destruct (round1_uniforme u) as (z & Hz & ? & ? & ? & ? & ?);
        [done|]; eauto
    end.
Qed.

(** X13.  Every name of the generated table is one of the ten project names. *)
Theorem generar_datos_ficticios_names n s i r :
  sorteo_valido n s → (i, r) ∈ generar_datos_ficticios n s →
  Nombre_Proyecto r ∈ proyectos.
Proof.
  intros Hs Hin. apply elem_of_generar in Hin as (k & Hk & -> & ->).
  destruct (Hs k Hk) as (Hp & _). simpl.
  destruct (lookup_lt_is_Some_2 proyectos _ Hp) as [x Hx].
  rewrite Hx. simpl. by eapply list_elem_of_lookup_2.
Qed.

(** * The main script *)

Lemma dict_pesos_tiene wv wc wi wn we :
  tiene_pesos (dict_pesos wv wc wi wn we) (mkWeights wv wc wi wn we).
Proof. unfold tiene_pesos, dict_pesos. simpl. by rewrite !lookup_insert. Qed.

Lemma generar_montos n s :
  sorteo_valido n s →
  Forall (λ ir, 500 ≤ Monto_Solicitado ir.2 ≤ 5000)
    (generar_datos_ficticios n s).
Proof.
  intros Hs. apply Forall_forall. intros [i r] Hin.
  apply elem_of_generar in Hin as (k & Hk & -> & ->).
  destruct (Hs k Hk) as (_ & Hm & _). simpl.
  pose proof (Z.div_mod (sorteo_monto s k) 50 ltac:(lia)) as Hdm.
  pose proof (Z.mod_pos_bound (sorteo_monto s k) 50 ltac:(lia)) as Hb.
  assert (10 ≤ sorteo_monto s k `div` 50) as Hdiv
    by (apply Z.div_le_lower_bound; lia).
  lia.
Qed.

Lemma peso_por_puntaje (p x : Q) :
  (0 <= p)%Q → (1 <= x)%Q → (x <= 10)%Q →
  (p <= p * x)%Q ∧ (p * x <= 10 * p)%Q.
Proof.
  intros Hp H1 H10. split.
  - apply (Qle_trans _ (p * 1)); [rewrite Qmult_1_r; apply Qle_refl|].
    apply Qmult_le_compat_nonneg; split; lra.
  - apply (Qle_trans _ (p * 10)); [|rewrite Qmult_comm; apply Qle_refl].
    apply Qmult_le_compat_nonneg; split; lra.
Qed.

Lemma sorteo_demo_valido n : sorteo_valido n sorteo_demo.
Proof.
  intros k _. unfold sorteo_demo, uniforme_1_10. simpl.
  pose proof (Nat.mod_upper_bound k 10 ltac:(lia)).
  pose proof (Nat.mod_upper_bound k 20 ltac:(lia)).
  pose proof (Nat.mod_upper_bound k 30 ltac:(lia)).
  unfold Qle, Qlt. simpl. split_and!; lia.
Qed.

Lemma walk_head_approved c s a w c' :
  walk c s a w c' → s ≠ [] →
  Forall (λ ir, Monto_Solicitado ir.2 ≤ c) s → a ≠ [].
Proof.
  destruct 1 as [|c ir s a w c' Hle _|c ir s a w c' Hlt _];
    intros Hne Hall; [done..|].
  apply Forall_cons in Hall as [Hir _]. lia.
Qed.

Section Principal.

Variable sort_values : DataFrame → DataFrame.
Hypothesis sort_values_perm : ∀ df, sort_values df ≡ₚ df.

(** What a run of the script computes: the table generated goes into a
    new object, the engine works on a copy of it, and the figures are
    read off the result of the walk over the ranking. *)
Lemma principal_run capital n wv wc wi wn we s (h : heap) :
  ∃ a e c,
    principal sort_values capital n wv wc wi wn we s h
      = (Return (fresh (dom h),
                 (a,
                  drop_rows (puntuar (mkWeights wv wc wi wn we)
                               (generar_datos_ficticios n s)) (labels a),
                  c),
                 mkMetricas (capital - c) (length a) (suma_IPS a) c),
         <[fresh (dom (<[fresh (dom h) := generar_datos_ficticios n s]> h))
             := puntuar (mkWeights wv wc wi wn we)
                  (generar_datos_ficticios n s)]>
           (<[fresh (dom h) := generar_datos_ficticios n s]> h)) ∧
    walk capital
      (sort_values (puntuar (mkWeights wv wc wi wn we)
                      (generar_datos_ficticios n s))) a e c ∧
    drop_rows (puntuar (mkWeights wv wc wi wn we)
                 (generar_datos_ficticios n s)) (labels a) ≡ₚ e.
Proof.
  destruct (optimizar_prestamos_walk sort_values sort_values_perm
              (fresh (dom (<[fresh (dom h) := generar_datos_ficticios n s]> h)))
              capital (dict_pesos wv wc wi wn we)
              (<[fresh (dom (<[fresh (dom h)
                                 := generar_datos_ficticios n s]> h))
                   := generar_datos_ficticios n s]>
                 (<[fresh (dom h) := generar_datos_ficticios n s]> h))
              (generar_datos_ficticios n s)
              (mkWeights wv wc wi wn we))
    as (a & e & c & Hrun & Hwalk & Hdrop).
  { by rewrite lookup_insert_eq. }
  { apply dict_pesos_tiene. }
  { apply NoDup_labels_generar. }
  exists a, e, c. split; [|done].
  unfold principal, alloc, llamada_principal, copy, load, py_bind.
  cbv beta zeta. rewrite lookup_insert_eq.
  rewrite Hrun. simpl. by rewrite insert_insert_eq.
Qed.

(** X14.  A run of the script never raises.  The table it generated is still
    in its object afterwards, as generated, and no object that existed
    before has changed.  The approved and the waitlisted requests add up
    to the number asked for, and the capital assigned shown is the sum
    of the approved amounts. *)
Theorem principal_returns capital n wv wc wi wn we s (h : heap) :
  ∃ df_solicitudes aprobados rechazados sobrante m h',
    principal sort_values capital n wv wc wi wn we s h
      = (Return (df_solicitudes, (aprobados, rechazados, sobrante), m), h') ∧
    h !! df_solicitudes = None ∧
    h' !! df_solicitudes = Some (generar_datos_ficticios n s) ∧
    (∀ l, is_Some (h !! l) → h' !! l = h !! l) ∧
    (length aprobados + length rechazados = n)%nat ∧
    proyectos_aprobados_n m = length aprobados ∧
    capital_sobrante m = sobrante ∧
    capital_asignado m = suma_montos aprobados.
Proof.
  destruct (principal_run capital n wv wc wi wn we s h)
    as (a & e & c & Hrun & Hwalk & Hdrop).
  rewrite Hrun. do 6 eexists. split; [done|].
  set (g := generar_datos_ficticios n s) in *.
  set (l := fresh (dom h)). set (h1 := <[l := g]> h).
  assert (h !! l = None) as Hl.
  { apply not_elem_of_dom. apply is_fresh. }
  assert (fresh (dom h1) ≠ l) as Hne.
  { intros Heq. apply (is_fresh (dom h1)). rewrite Heq.
    apply elem_of_dom. unfold h1. by rewrite lookup_insert_eq. }
  split_and!; try done.
  - rewrite lookup_insert_ne by done. unfold h1. by rewrite lookup_insert_eq.
  - intros l0 Hl0.
    assert (l0 ≠ l) by (intros ->; rewrite Hl in Hl0; by destruct Hl0).
    assert (l0 ≠ fresh (dom h1)).
    { intros ->. apply (is_fresh (dom h1)). apply elem_of_dom.
      unfold h1. by rewrite lookup_insert_ne. }
    rewrite lookup_insert_ne by done. unfold h1.
    by rewrite lookup_insert_ne.
  - rewrite <- length_app, Hdrop, (walk_perm _ _ _ _ _ Hwalk),
      sort_values_perm, length_puntuar.
    unfold g, generar_datos_ficticios. by rewrite !length_fmap, length_seq.
  - simpl. rewrite (walk_conservation _ _ _ _ _ Hwalk). lia.
Qed.

(** X15.  With the budget the slider allows and the amounts the generator
    draws, the capital assigned lies between 0 and the budget and the
    capital left over is not negative; the request at the head of the
    ranking is always funded, so at least one project is approved; no
    waitlisted request fits in what is left, which is less than 5000 as
    soon as one request is waitlisted. *)
Theorem principal_money capital n wv wc wi wn we s (h : heap) :
  controles_validos capital n wv wc wi wn we → sorteo_valido n s →
  ∃ df_solicitudes aprobados rechazados sobrante m h',
    principal sort_values capital n wv wc wi wn we s h
      = (Return (df_solicitudes, (aprobados, rechazados, sobrante), m), h') ∧
    0 ≤ capital_asignado m ≤ capital ∧
    0 ≤ capital_sobrante m ∧
    (0 < proyectos_aprobados_n m)%nat ∧
    Forall (λ ir, capital_sobrante m < Monto_Solicitado ir.2) rechazados ∧
    (rechazados = [] ∨ capital_sobrante m < 5000).
Proof.
  intros (Hcap & Hn & _) Hs.
  destruct (principal_run capital n wv wc wi wn we s h)
    as (a & e & c & Hrun & Hwalk & Hdrop).
  rewrite Hrun. do 6 eexists. split; [done|]. simpl.
  set (g := generar_datos_ficticios n s) in *.
  set (w := mkWeights wv wc wi wn we) in *.
  assert (Forall (λ ir, 500 ≤ Monto_Solicitado ir.2 ≤ 5000)
            (sort_values (puntuar w g))) as Hm.
  { rewrite sort_values_perm.
    apply (Forall_monto_puntuar (λ m, 500 ≤ m ≤ 5000)).
    by apply generar_montos. }
  assert (Forall (λ ir, 0 ≤ Monto_Solicitado ir.2)
            (sort_values (puntuar w g))) as Hpos.
  { eapply Forall_impl; [done|]. simpl. lia. }
  pose proof (walk_nonneg _ _ _ _ _ Hwalk ltac:(lia)) as Hc.
  pose proof (walk_decreasing _ _ _ _ _ Hwalk Hpos) as Hdec.
  assert (Forall (λ ir, c < Monto_Solicitado ir.2)
            (drop_rows (puntuar w g) (labels a))) as Hwait.
  { rewrite Hdrop. by eapply walk_waitlisted_does_not_fit. }
  split_and!; try done; try lia.
  - assert (length (sort_values (puntuar w g)) = n) as Hlen.
    { rewrite sort_values_perm, length_puntuar. unfold g.
      unfold generar_datos_ficticios. by rewrite !length_fmap, length_seq. }
    assert (a ≠ []) as Ha.
    { eapply walk_head_approved; [done| |].
      - intros Hnil. rewrite Hnil in Hlen. simpl in Hlen. lia.
      - eapply Forall_impl; [exact Hm|]. simpl. lia. }
    destruct a; [done|]. simpl. lia.
  - destruct (drop_rows (puntuar w g) (labels a)) as [|ir r] eqn:Hr;
      [by left|right].
    apply Forall_cons in Hwait as [Hir _].
    assert (ir ∈ sort_values (puntuar w g)) as Hin.
    { rewrite sort_values_perm. eapply elem_of_drop_rows.
      rewrite Hr. by left. }
    eapply Forall_forall in Hm; [|done]. lia.
Qed.

(** X16.  With the weights the sliders allow and the scores the generator
    draws, every row of the two tables has an IPS between the sum of the
    weights and ten times that sum, and a finite efficiency: that IPS
    divided by an amount between 500 and 5000.  No infinity and no NaN is
    displayed. *)
Theorem principal_scores capital n wv wc wi wn we s (h : heap) :
  controles_validos capital n wv wc wi wn we → sorteo_valido n s →
  ∃ df_solicitudes aprobados rechazados sobrante m h',
    principal sort_values capital n wv wc wi wn we s h
      = (Return (df_solicitudes, (aprobados, rechazados, sobrante), m), h') ∧
    ∀ i r, (i, r) ∈ aprobados ++ rechazados →
      ∃ x, IPS r = Some x ∧
        (wv + wc + wi + wn + we <= x)%Q ∧
        (x <= 10 * (wv + wc + wi + wn + we))%Q ∧
        500 ≤ Monto_Solicitado r ≤ 5000 ∧
        Eficiencia_Solidaria r
          = Some (Fin (x / inject_Z (Monto_Solicitado r))).
Proof.
  intros (_ & _ & Hws) Hs.
  destruct (principal_run capital n wv wc wi wn we s h)
    as (a & e & c & Hrun & Hwalk & Hdrop).
  rewrite Hrun. do 6 eexists. split; [done|].
  set (g := generar_datos_ficticios n s) in *.
  set (w := mkWeights wv wc wi wn we) in *.
  intros i r' Hin.
  assert ((i, r') ∈ puntuar w g) as Hin'.
  { apply elem_of_app in Hin as [Hin|Hin].
    - rewrite <- (sort_values_perm (puntuar w g)).
      eapply elem_of_sublist; [done|]. by eapply walk_sublist_approved.
    - by eapply elem_of_drop_rows. }
  apply elem_of_puntuar in Hin' as (r & Hr & ->).
  pose proof (generar_montos n s Hs) as Hm.
  eapply Forall_forall in Hm; [|done]. simpl in Hm.
  apply elem_of_generar in Hr as (k & Hk & -> & Hrk).
  destruct (Hs k Hk) as (_ & _ & HV & HC & HI & HN & HE).
  destruct (round1_uniforme _ HV) as (? & _ & _ & HV1 & HV2 & _).
  destruct (round1_uniforme _ HC) as (? & _ & _ & HC1 & HC2 & _).
  destruct (round1_uniforme _ HI) as (? & _ & _ & HI1 & HI2 & _).
  destruct (round1_uniforme _ HN) as (? & _ & _ & HN1 & HN2 & _).
  destruct (round1_uniforme _ HE) as (? & _ & _ & HE1 & HE2 & _).
  repeat (apply Forall_cons in Hws as [[? ?] Hws]).
  exists (compute_IPS w r). split; [done|].
  assert (Monto_Solicitado r ≠ 0) as Hnz by lia.
  split_and!.
  - subst r. unfold compute_IPS, w. simpl.
    destruct (peso_por_puntaje wv (round1 (sorteo_V s k))); [done..|].
    destruct (peso_por_puntaje wc (round1 (sorteo_C s k))); [done..|].
    destruct (peso_por_puntaje wi (round1 (sorteo_I s k))); [done..|].
    destruct (peso_por_puntaje wn (round1 (sorteo_N s k))); [done..|].
    destruct (peso_por_puntaje we (round1 (sorteo_E s k))); [done..|].
    lra.
  - subst r. unfold compute_IPS, w. simpl.
    destruct (peso_por_puntaje wv (round1 (sorteo_V s k))); [done..|].
    destruct (peso_por_puntaje wc (round1 (sorteo_C s k))); [done..|].
    destruct (peso_por_puntaje wi (round1 (sorteo_I s k))); [done..|].
    destruct (peso_por_puntaje wn (round1 (sorteo_N s k))); [done..|].
    destruct (peso_por_puntaje we (round1 (sorteo_E s k))); [done..|].
    lra.
  - simpl. lia.
  - simpl. lia.
  - simpl. unfold row_eficiencia, truediv. simpl. by rewrite decide_False.
Qed.

End Principal.

(** * The further properties on the demonstration tables *)

Lemma missing_weight_raises_witness :
  claves = ["w_v"; "w_c"] ++ "w_i" :: ["w_n"; "w_e"] ∧
  Forall (λ c, is_Some (pesos_incompletos !! c)) ["w_v"; "w_c"] ∧
  pesos_incompletos !! "w_i" = None ∧
  optimizar_prestamos sort_values_stable 1%positive 3800
    pesos_incompletos heap_demo
    = (Raise (KeyError "w_i"), heap_demo).
Proof.
  assert (claves = ["w_v"; "w_c"] ++ "w_i" :: ["w_n"; "w_e"]) as H1
    by reflexivity.
  assert (Forall (λ c, is_Some (pesos_incompletos !! c)) ["w_v"; "w_c"])
    as H2 by (repeat constructor; by eexists).
  assert (pesos_incompletos !! "w_i" = None) as H3 by reflexivity.
  do 3 (split; [assumption|]).
  exact (missing_weight_raises sort_values_stable 1%positive 3800
           pesos_incompletos heap_demo _ _ _ H1 H2 H3).
Defined.

Lemma empty_table_witness :
  heap_vacio !! 1%positive = Some [] ∧
  tiene_pesos pesos_demo w_demo ∧
  (optimizar_prestamos sort_values_stable 1%positive 3800
     pesos_demo heap_vacio).1
    = Return ([], [], 3800).
Proof.
  assert (heap_vacio !! 1%positive = Some []) as H1 by reflexivity.
  assert (tiene_pesos pesos_demo w_demo) as H2 by (vm_compute; tauto).
  do 2 (split; [assumption|]).
  exact (empty_table sort_values_stable sort_values_stable_perm
           1%positive 3800 pesos_demo heap_vacio w_demo H1 H2).
Defined.

Lemma insufficient_capital_witness :
  heap_demo !! 1%positive = Some solicitudes_demo ∧
  tiene_pesos pesos_demo w_demo ∧
  Forall (λ ir, 0 < Monto_Solicitado ir.2) solicitudes_demo ∧
  (optimizar_prestamos sort_values_stable 1%positive 0
     pesos_demo heap_demo).1
    = Return ([], puntuar w_demo solicitudes_demo, 0).
Proof.
  assert (heap_demo !! 1%positive = Some solicitudes_demo) as H1
    by reflexivity.
  assert (tiene_pesos pesos_demo w_demo) as H2 by (vm_compute; tauto).
  assert (Forall (λ ir, 0 < Monto_Solicitado ir.2) solicitudes_demo) as H3
    by (repeat constructor; simpl; lia).
  do 3 (split; [assumption|]).
  exact (insufficient_capital sort_values_stable sort_values_stable_perm
           1%positive 0 pesos_demo heap_demo solicitudes_demo w_demo
           H1 H2 H3).
Defined.

Lemma sufficient_capital_witness :
  heap_demo !! 1%positive = Some solicitudes_demo ∧
  tiene_pesos pesos_demo w_demo ∧
  NoDup (labels solicitudes_demo) ∧
  Forall (λ ir, 0 ≤ Monto_Solicitado ir.2) solicitudes_demo ∧
  suma_montos solicitudes_demo ≤ 6000 ∧
  (optimizar_prestamos sort_values_stable 1%positive 6000
     pesos_demo heap_demo).1
    = Return (sort_values_stable (puntuar w_demo solicitudes_demo), [],
              6000 - suma_montos solicitudes_demo).
Proof.
  assert (heap_demo !! 1%positive = Some solicitudes_demo) as H1
    by reflexivity.
  assert (tiene_pesos pesos_demo w_demo) as H2 by (vm_compute; tauto).
  assert (NoDup (labels solicitudes_demo)) as H3 by compute_done.
  assert (Forall (λ ir, 0 ≤ Monto_Solicitado ir.2) solicitudes_demo) as H4
    by (repeat constructor; simpl; lia).
  assert (suma_montos solicitudes_demo ≤ 6000) as H5 by (simpl; lia).
  do 5 (split; [assumption|]).
  exact (sufficient_capital sort_values_stable sort_values_stable_perm
           1%positive 6000 pesos_demo heap_demo solicitudes_demo w_demo
           H1 H2 H3 H4 H5).
Defined.

Lemma waitlisted_exceed_remaining_witness :
  heap_demo !! 1%positive = Some solicitudes_demo ∧
  tiene_pesos pesos_demo w_demo ∧
  NoDup (labels solicitudes_demo) ∧
  Forall (λ ir, 0 ≤ Monto_Solicitado ir.2) solicitudes_demo ∧
  ∃ aprobados rechazados restante,
    (optimizar_prestamos sort_values_stable 1%positive 3800
       pesos_demo heap_demo).1
      = Return (aprobados, rechazados, restante) ∧
    Forall (λ ir, restante < Monto_Solicitado ir.2) rechazados.
Proof.
  assert (heap_demo !! 1%positive = Some solicitudes_demo) as H1
    by reflexivity.
  assert (tiene_pesos pesos_demo w_demo) as H2 by (vm_compute; tauto).
  assert (NoDup (labels solicitudes_demo)) as H3 by compute_done.
  assert (Forall (λ ir, 0 ≤ Monto_Solicitado ir.2) solicitudes_demo) as H4
    by (repeat constructor; simpl; lia).
  do 4 (split; [assumption|]).
  exact (waitlisted_exceed_remaining sort_values_stable
           sort_values_stable_perm
           1%positive 3800 pesos_demo heap_demo solicitudes_demo w_demo
           H1 H2 H3 H4).
Defined.

Lemma nonzero_amounts_finite_efficiency_witness :
  heap_demo !! 1%positive = Some solicitudes_demo ∧
  tiene_pesos pesos_demo w_demo ∧
  Forall (λ ir, Monto_Solicitado ir.2 ≠ 0) solicitudes_demo ∧
  ∃ aprobados rechazados restante,
    (optimizar_prestamos sort_values_stable 1%positive 3800
       pesos_demo heap_demo).1
      = Return (aprobados, rechazados, restante) ∧
    ∀ i r', (i, r') ∈ aprobados ++ rechazados →
      ∃ r, (i, r) ∈ solicitudes_demo ∧
        Eficiencia_Solidaria r'
          = Some (Fin (compute_IPS w_demo r / inject_Z (Monto_Solicitado r))).
Proof.
  assert (heap_demo !! 1%positive = Some solicitudes_demo) as H1
    by reflexivity.
  assert (tiene_pesos pesos_demo w_demo) as H2 by (vm_compute; tauto).
  assert (Forall (λ ir, Monto_Solicitado ir.2 ≠ 0) solicitudes_demo) as H3
    by (repeat constructor; simpl; lia).
  do 3 (split; [assumption|]).
  exact (nonzero_amounts_finite_efficiency sort_values_stable
           1%positive 3800 pesos_demo heap_demo solicitudes_demo w_demo
           H1 H2 H3).
Defined.

Lemma top_ranked_approved_iff_fits_witness :
  heap_demo !! 1%positive = Some solicitudes_demo ∧
  tiene_pesos pesos_demo w_demo ∧
  NoDup (labels solicitudes_demo) ∧
  sort_values_stable (puntuar w_demo solicitudes_demo)
    = (1, puntuar_fila w_demo
            (solicitud 2 "Servicio de Reparaciones" 500 5 5 5 5 5))
      :: [ (3, puntuar_fila w_demo
                 (solicitud 4 "Venta de Comida" 1000 10 10 10 10 10));
           (2, puntuar_fila w_demo
                 (solicitud 3 "Clases de Refuerzo" 2500 9 9 9 9 9));
           (0, puntuar_fila w_demo
                 (solicitud 1 "Taller de Costura" 2000 8 6 7 5 9)) ] ∧
  ∃ aprobados rechazados restante,
    (optimizar_prestamos sort_values_stable 1%positive 3800
       pesos_demo heap_demo).1
      = Return (aprobados, rechazados, restante) ∧
    ((1, puntuar_fila w_demo
           (solicitud 2 "Servicio de Reparaciones" 500 5 5 5 5 5))
       ∈ aprobados ↔ 500 ≤ 3800) ∧
    ((1, puntuar_fila w_demo
           (solicitud 2 "Servicio de Reparaciones" 500 5 5 5 5 5))
       ∈ rechazados ↔ 3800 < 500).
Proof.
  assert (heap_demo !! 1%positive = Some solicitudes_demo) as H1
    by reflexivity.
  assert (tiene_pesos pesos_demo w_demo) as H2 by (vm_compute; tauto).
  assert (NoDup (labels solicitudes_demo)) as H3 by compute_done.
  assert (sort_values_stable (puntuar w_demo solicitudes_demo)
    = (1, puntuar_fila w_demo
            (solicitud 2 "Servicio de Reparaciones" 500 5 5 5 5 5))
      :: [ (3, puntuar_fila w_demo
                 (solicitud 4 "Venta de Comida" 1000 10 10 10 10 10));
           (2, puntuar_fila w_demo
                 (solicitud 3 "Clases de Refuerzo" 2500 9 9 9 9 9));
           (0, puntuar_fila w_demo
                 (solicitud 1 "Taller de Costura" 2000 8 6 7 5 9)) ]) as H4
    by (vm_compute; reflexivity).
  do 4 (split; [assumption|]).
  exact (top_ranked_approved_iff_fits sort_values_stable
           sort_values_stable_perm
           1%positive 3800 pesos_demo heap_demo solicitudes_demo w_demo
           _ _ H1 H2 H3 H4).
Defined.

Lemma derived_cells_ignored_witness :
  heap_demo !! 1%positive = Some solicitudes_demo ∧
  heap_puntuado !! 1%positive = Some (puntuar w_demo solicitudes_demo) ∧
  tiene_pesos pesos_demo w_demo ∧
  (λ ir, (ir.1, sin_derivadas ir.2)) <$> solicitudes_demo
    = (λ ir, (ir.1, sin_derivadas ir.2)) <$> puntuar w_demo solicitudes_demo ∧
  (optimizar_prestamos sort_values_stable 1%positive 3800
     pesos_demo heap_demo).1
    = (optimizar_prestamos sort_values_stable 1%positive 3800
         pesos_demo heap_puntuado).1 ∧
  (optimizar_prestamos sort_values_stable 1%positive 3800
     pesos_demo heap_demo).2 !! 1%positive
    = (optimizar_prestamos sort_values_stable 1%positive 3800
         pesos_demo heap_puntuado).2 !! 1%positive.
Proof.
  assert (heap_demo !! 1%positive = Some solicitudes_demo) as H1
    by reflexivity.
  assert (heap_puntuado !! 1%positive
          = Some (puntuar w_demo solicitudes_demo)) as H2 by reflexivity.
  assert (tiene_pesos pesos_demo w_demo) as H3 by (vm_compute; tauto).
  assert ((λ ir, (ir.1, sin_derivadas ir.2)) <$> solicitudes_demo
    = (λ ir, (ir.1, sin_derivadas ir.2)) <$> puntuar w_demo solicitudes_demo)
    as H4 by reflexivity.
  do 4 (split; [assumption|]).
  exact (derived_cells_ignored sort_values_stable
           1%positive 1%positive 3800 pesos_demo heap_demo heap_puntuado
           solicitudes_demo (puntuar w_demo solicitudes_demo) w_demo
           H1 H2 H3 H4).
Defined.

Lemma rescaled_weights_same_ranking_witness :
  (0 < 1 # 2)%Q ∧
  (∀ r, (compute_IPS (escalar (1 # 2) w_demo) r
         == (1 # 2) * compute_IPS w_demo r)%Q) ∧
  (Sorted desc
     (puntuar (escalar (1 # 2) w_demo)
        [ (1, solicitud 2 "Servicio de Reparaciones" 500 5 5 5 5 5);
          (3, solicitud 4 "Venta de Comida" 1000 10 10 10 10 10);
          (2, solicitud 3 "Clases de Refuerzo" 2500 9 9 9 9 9);
          (0, solicitud 1 "Taller de Costura" 2000 8 6 7 5 9) ])
   ↔ Sorted desc
       (puntuar w_demo
          [ (1, solicitud 2 "Servicio de Reparaciones" 500 5 5 5 5 5);
            (3, solicitud 4 "Venta de Comida" 1000 10 10 10 10 10);
            (2, solicitud 3 "Clases de Refuerzo" 2500 9 9 9 9 9);
            (0, solicitud 1 "Taller de Costura" 2000 8 6 7 5 9) ])).
Proof.
  assert (0 < 1 # 2)%Q as H1 by reflexivity.
  split; [assumption|].
  exact (rescaled_weights_same_ranking (1 # 2) w_demo _ H1).
Defined.

Lemma generar_datos_ficticios_amounts_witness :
  sorteo_valido 25 sorteo_demo ∧
  (0, fila_demo) ∈ generar_datos_ficticios 25 sorteo_demo ∧
  ∃ k, (k < 25)%nat ∧ 0 = Z.of_nat k ∧
    Monto_Solicitado fila_demo = sorteo_monto sorteo_demo k `div` 50 * 50 ∧
    Monto_Solicitado fila_demo `mod` 50 = 0 ∧
    500 ≤ Monto_Solicitado fila_demo ≤ 5000 ∧
    sorteo_monto sorteo_demo k - 50 < Monto_Solicitado fila_demo
      ≤ sorteo_monto sorteo_demo k.
Proof.
  assert (sorteo_valido 25 sorteo_demo) as H1 by apply sorteo_demo_valido.
  assert ((0, fila_demo) ∈ generar_datos_ficticios 25 sorteo_demo) as H2
    by (vm_compute; left).
  do 2 (split; [assumption|]).
  exact (generar_datos_ficticios_amounts 25 sorteo_demo 0 fila_demo H1 H2).
Defined.

Lemma generar_datos_ficticios_scores_witness :
  sorteo_valido 25 sorteo_demo ∧
  (0, fila_demo) ∈ generar_datos_ficticios 25 sorteo_demo ∧
  ∃ k, (k < 25)%nat ∧ 0 = Z.of_nat k ∧
    Forall (λ '(x, u),
              (∃ z : Z, x = (z # 10)%Q ∧ 10 ≤ z ≤ 100) ∧
              (1 <= x)%Q ∧ (x <= 10)%Q ∧
              (- (1 # 20) <= x - u)%Q ∧ (x - u <= 1 # 20)%Q)
      [ (V_Viabilidad fila_demo, sorteo_V sorteo_demo k);
        (C_Cohesion_Grupo fila_demo, sorteo_C sorteo_demo k);
        (I_Impacto_Comunitario fila_demo, sorteo_I sorteo_demo k);
        (N_Nivel_Necesidad fila_demo, sorteo_N sorteo_demo k);
        (E_Compromiso fila_demo, sorteo_E sorteo_demo k) ].
Proof.
  assert (sorteo_valido 25 sorteo_demo) as H1 by apply sorteo_demo_valido.
  assert ((0, fila_demo) ∈ generar_datos_ficticios 25 sorteo_demo) as H2
    by (vm_compute; left).
  do 2 (split; [assumption|]).
  exact (generar_datos_ficticios_scores 25 sorteo_demo 0 fila_demo H1 H2).
Defined.

Lemma generar_datos_ficticios_names_witness :
  sorteo_valido 25 sorteo_demo ∧
  (0, fila_demo) ∈ generar_datos_ficticios 25 sorteo_demo ∧
  Nombre_Proyecto fila_demo ∈ proyectos.
Proof.
  assert (sorteo_valido 25 sorteo_demo) as H1 by apply sorteo_demo_valido.
  assert ((0, fila_demo) ∈ generar_datos_ficticios 25 sorteo_demo) as H2
    by (vm_compute; left).
  do 2 (split; [assumption|]).
  exact (generar_datos_ficticios_names 25 sorteo_demo 0 fila_demo H1 H2).
Defined.

Lemma controles_demo_validos :
  controles_validos 20000 25 (3 # 10) (2 # 10) (2 # 10) (2 # 10) (1 # 10).
Proof.
  unfold controles_validos. split_and!; try lia.
  repeat constructor; unfold Qle; simpl; lia.
Qed.

Lemma principal_returns_witness :
  (∀ df, sort_values_stable df ≡ₚ df) ∧
  ∃ df_solicitudes aprobados rechazados sobrante m h',
    principal sort_values_stable 20000 25
      (3 # 10) (2 # 10) (2 # 10) (2 # 10) (1 # 10) sorteo_demo ∅
      = (Return (df_solicitudes, (aprobados, rechazados, sobrante), m), h') ∧
    (∅ : heap) !! df_solicitudes = None ∧
    h' !! df_solicitudes = Some (generar_datos_ficticios 25 sorteo_demo) ∧
    (∀ l, is_Some ((∅ : heap) !! l) → h' !! l = (∅ : heap) !! l) ∧
    (length aprobados + length rechazados = 25)%nat ∧
    proyectos_aprobados_n m = length aprobados ∧
    capital_sobrante m = sobrante ∧
    capital_asignado m = suma_montos aprobados.
Proof.
  split; [apply sort_values_stable_perm|].
  exact (principal_returns sort_values_stable sort_values_stable_perm
           20000 25 (3 # 10) (2 # 10) (2 # 10) (2 # 10) (1 # 10)
           sorteo_demo ∅).
Defined.

Lemma principal_money_witness :
  controles_validos 20000 25 (3 # 10) (2 # 10) (2 # 10) (2 # 10) (1 # 10) ∧
  sorteo_valido 25 sorteo_demo ∧
  ∃ df_solicitudes aprobados rechazados sobrante m h',
    principal sort_values_stable 20000 25
      (3 # 10) (2 # 10) (2 # 10) (2 # 10) (1 # 10) sorteo_demo ∅
      = (Return (df_solicitudes, (aprobados, rechazados, sobrante), m), h') ∧
    0 ≤ capital_asignado m ≤ 20000 ∧
    0 ≤ capital_sobrante m ∧
    (0 < proyectos_aprobados_n m)%nat ∧
    Forall (λ ir, capital_sobrante m < Monto_Solicitado ir.2) rechazados ∧
    (rechazados = [] ∨ capital_sobrante m < 5000).
Proof.
  assert (controles_validos 20000 25
            (3 # 10) (2 # 10) (2 # 10) (2 # 10) (1 # 10)) as H1
    by apply controles_demo_validos.
  assert (sorteo_valido 25 sorteo_demo) as H2 by apply sorteo_demo_valido.
  do 2 (split; [assumption|]).
  exact (principal_money sort_values_stable sort_values_stable_perm
           20000 25 (3 # 10) (2 # 10) (2 # 10) (2 # 10) (1 # 10)
           sorteo_demo ∅ H1 H2).
Defined.

Lemma principal_scores_witness :
  controles_validos 20000 25 (3 # 10) (2 # 10) (2 # 10) (2 # 10) (1 # 10) ∧
  sorteo_valido 25 sorteo_demo ∧
  ∃ df_solicitudes aprobados rechazados sobrante m h',
    principal sort_values_stable 20000 25
      (3 # 10) (2 # 10) (2 # 10) (2 # 10) (1 # 10) sorteo_demo ∅
      = (Return (df_solicitudes, (aprobados, rechazados, sobrante), m), h') ∧
    ∀ i r, (i, r) ∈ aprobados ++ rechazados →
      ∃ x, IPS r = Some x ∧
        ((3 # 10) + (2 # 10) + (2 # 10) + (2 # 10) + (1 # 10) <= x)%Q ∧
        (x <= 10 * ((3 # 10) + (2 # 10) + (2 # 10) + (2 # 10) + (1 # 10)))%Q ∧
        500 ≤ Monto_Solicitado r ≤ 5000 ∧
        Eficiencia_Solidaria r
          = Some (Fin (x / inject_Z (Monto_Solicitado r))).
Proof.
  assert (controles_validos 20000 25
            (3 # 10) (2 # 10) (2 # 10) (2 # 10) (1 # 10)) as H1
    by apply controles_demo_validos.
  assert (sorteo_valido 25 sorteo_demo) as H2 by apply sorteo_demo_valido.
  do 2 (split; [assumption|]).
  exact (principal_scores sort_values_stable sort_values_stable_perm
           20000 25 (3 # 10) (2 # 10) (2 # 10) (2 # 10) (1 # 10)
           sorteo_demo ∅ H1 H2).
Defined.

(** * The head of the ranking *)

Lemma walk_prefix p : ∀ c q a w c',
  walk c (p ++ q) a w c' →
  Forall (λ ir, 0 ≤ Monto_Solicitado ir.2) p → suma_montos p ≤ c →
  ∃ a', a = p ++ a' ∧ walk (c - suma_montos p) q a' w c'.
Proof.
  induction p as [|ir p IH]; intros c q a w c' Hwalk Hall Hsum; simpl in *.
  - exists a. split; [done|]. by replace (c - 0) with c by lia.
  - apply Forall_cons in Hall as [Hir Hall].
    assert (0 ≤ suma_montos p) as Hp.
    { clear -Hall. induction Hall; simpl; lia. }
    inversion Hwalk as [|? ? ? a0 ? ? Hle Hw'|? ? ? ? w0 ? Hlt Hw']; subst;
      [|lia].
    destruct (IH _ _ _ _ _ Hw' Hall) as (a' & -> & Hw''); [lia|].
    exists a'. split; [done|].
    by replace (c - (Monto_Solicitado ir.2 + suma_montos p))
      with (c - Monto_Solicitado ir.2 - suma_montos p) by lia.
Qed.

Section Prefix.

Variable sort_values : DataFrame → DataFrame.
Hypothesis sort_values_perm : ∀ df, sort_values df ≡ₚ df.

(** X17.  The requests at the head of the ranking whose amounts, none of
    them negative, together fit in the budget are all approved: the
    approved table begins with them, in the order of the ranking. *)
Theorem affordable_prefix_approved df capital pesos h d w p q :
  h !! df = Some d → tiene_pesos pesos w → NoDup (labels d) →
  sort_values (puntuar w d) = p ++ q →
  Forall (λ ir, 0 ≤ Monto_Solicitado ir.2) p →
  suma_montos p ≤ capital →
  ∃ aprobados rechazados restante resto,
    (optimizar_prestamos sort_values df capital pesos h).1
      = Return (aprobados, rechazados, restante) ∧
    aprobados = p ++ resto ∧
    restante = capital - suma_montos p - suma_montos resto.
Proof.
  intros Hd Hw Hnd Hs Hall Hsum.
  destruct (optimizar_prestamos_walk sort_values sort_values_perm
              df capital pesos h d w Hd Hw Hnd)
    as (a & e & c & Hrun & Hwalk & Hdrop).
  rewrite Hrun. rewrite Hs in Hwalk.
  destruct (walk_prefix _ _ _ _ _ _ Hwalk Hall Hsum) as (a' & -> & Hw').
  do 3 eexists. exists a'. split_and!; [done..|].
  rewrite (walk_conservation _ _ _ _ _ Hw'). lia.
Qed.

End Prefix.

Lemma affordable_prefix_approved_witness :
  heap_demo !! 1%positive = Some solicitudes_demo ∧
  tiene_pesos pesos_demo w_demo ∧
  NoDup (labels solicitudes_demo) ∧
  sort_values_stable (puntuar w_demo solicitudes_demo)
    = [ (1, puntuar_fila w_demo
              (solicitud 2 "Servicio de Reparaciones" 500 5 5 5 5 5));
        (3, puntuar_fila w_demo
              (solicitud 4 "Venta de Comida" 1000 10 10 10 10 10)) ]
      ++ [ (2, puntuar_fila w_demo
                 (solicitud 3 "Clases de Refuerzo" 2500 9 9 9 9 9));
           (0, puntuar_fila w_demo
                 (solicitud 1 "Taller de Costura" 2000 8 6 7 5 9)) ] ∧
  ∃ aprobados rechazados restante resto,
    (optimizar_prestamos sort_values_stable 1%positive 3800
       pesos_demo heap_demo).1
      = Return (aprobados, rechazados, restante) ∧
    aprobados
      = [ (1, puntuar_fila w_demo
                (solicitud 2 "Servicio de Reparaciones" 500 5 5 5 5 5));
          (3, puntuar_fila w_demo
                (solicitud 4 "Venta de Comida" 1000 10 10 10 10 10)) ]
        ++ resto ∧
    restante
      = 3800
        - suma_montos
            [ (1, puntuar_fila w_demo
                    (solicitud 2 "Servicio de Reparaciones" 500 5 5 5 5 5));
              (3, puntuar_fila w_demo
                    (solicitud 4 "Venta de Comida" 1000 10 10 10 10 10)) ]
        - suma_montos resto.
Proof.
  assert (heap_demo !! 1%positive = Some solicitudes_demo) as H1
    by reflexivity.
  assert (tiene_pesos pesos_demo w_demo) as H2 by (vm_compute; tauto).
  assert (NoDup (labels solicitudes_demo)) as H3 by compute_done.
  assert (sort_values_stable (puntuar w_demo solicitudes_demo)
    = [ (1, puntuar_fila w_demo
              (solicitud 2 "Servicio de Reparaciones" 500 5 5 5 5 5));
        (3, puntuar_fila w_demo
              (solicitud 4 "Venta de Comida" 1000 10 10 10 10 10)) ]
      ++ [ (2, puntuar_fila w_demo
                 (solicitud 3 "Clases de Refuerzo" 2500 9 9 9 9 9));
           (0, puntuar_fila w_demo
                 (solicitud 1 "Taller de Costura" 2000 8 6 7 5 9)) ]) as H4
    by (vm_compute; reflexivity).
  do 4 (split; [assumption|]).
  refine (affordable_prefix_approved sort_values_stable
            sort_values_stable_perm
            1%positive 3800 pesos_demo heap_demo solicitudes_demo w_demo
            _ _ H1 H2 H3 H4 _ _).
  - repeat constructor; simpl; lia.
  - simpl. lia.
Defined.
